(** * hass.action_result: path evaluator, call-description normaliser,
      value classifier

    A shallow embedding of

    - [custom_components/action_result/utils.py]
        ([extract_data_at_path]),
    - [custom_components/action_result/helpers.py]
        ([detect_value_type_and_suggestions]),
    - [custom_components/service_result/config_flow_handler/validators/yaml_validator.py]
        ([validate_service_yaml], [parse_service_yaml], [dict_to_yaml]),
    - [custom_components/service_result/config_flow_handler/config_flow.py]
        ([_extract_action_from_selector], [_validate_service_call],
        [async_step_user], [async_step_reconfigure]),
    - [custom_components/service_result/config_flow_handler/schemas/config.py]
        ([get_user_schema], [get_reconfigure_schema]),
    - [custom_components/service_result/const.py],

    followed by the properties of the specification that concern them and
    by further properties of the code.  Home Assistant is not part of the
    repository either: the registry of services and the call of a service
    are parameters of the steps of the flow.

    Conventions.  A Python [str] is a Rocq [string]; a character stands for
    its code point, so the texts covered are those of code points below 256.
    A Python [dict] with text keys is a [gmap string pyval], whose equality
    is Python's [==] on dicts (same keys, same values, order irrelevant).
    Python [None] is the value [PNone]; a function that returns [None] for
    not-found returns [PNone] here as well.  PyYAML is not part of the
    repository: [safe_load] and [dump] are parameters of the functions that
    call them, and the values it loads are taken to be of the kinds above
    (null, boolean, integer, float, text, sequence, mapping with text
    keys). *)

From Stdlib Require Import ZArith Ascii String Bool Lia.
From stdpp Require Import base option list strings gmap.

Local Open Scope string_scope.
Local Open Scope Z_scope.

(* ===================================================================== *)
(** ** Python values and the built-ins the sources use                    *)
(* ===================================================================== *)

Module Py.

(** The exceptions the modelled built-ins can raise.  [FuelExhausted] is
    not one of Python's: it marks a loop that the model cut off after the
    number of passes it was given. *)
Inductive exn : Type :=
| ValueError
| IndexError
| TypeError
| AttributeError
| FuelExhausted.

(** A computation that returns or raises. *)
Inductive result (A : Type) : Type :=
| Ok (a : A)
| Raise (e : exn).
Arguments Ok {A} a.
Arguments Raise {A} e.

#[local] Set Warnings "-register-all".
(** The values a response or an argument document is made of.  A float
    is kept as its IEEE-754 binary64 bit pattern. *)
Inductive pyval : Type :=
| PNone
| PBool (b : bool)
| PInt (n : Z)
| PFloat (bits : Z)
| PStr (s : string)
| PList (items : list pyval)
| PDict (entries : gmap string pyval).
#[local] Set Warnings "register-all".

(** [x is None] *)
Definition is_None (v : pyval) : bool :=
  match v with PNone => true | _ => false end.

(** [isinstance(v, bool)] *)
Definition isinstance_bool (v : pyval) : bool :=
  match v with PBool _ => true | _ => false end.

(** [isinstance(v, int)]: [bool] is a subclass of [int]. *)
Definition isinstance_int (v : pyval) : bool :=
  match v with PBool _ | PInt _ => true | _ => false end.

(** [isinstance(v, float)] *)
Definition isinstance_float (v : pyval) : bool :=
  match v with PFloat _ => true | _ => false end.

(** [isinstance(v, str)] *)
Definition isinstance_str (v : pyval) : bool :=
  match v with PStr _ => true | _ => false end.

(** [isinstance(v, dict)] *)
Definition isinstance_dict (v : pyval) : bool :=
  match v with PDict _ => true | _ => false end.

(** [bool(v)]: the truth value of [v] ([+0.0] and [-0.0] are false). *)
Definition truthy (v : pyval) : bool :=
  match v with
  | PNone => false
  | PBool b => b
  | PInt n => negb (n =? 0)
  | PFloat bits => negb (Z.land bits (2 ^ 63 - 1) =? 0)
  | PStr s => negb (String.length s =? 0)%nat
  | PList items => negb (length items =? 0)%nat
  | PDict entries => negb (bool_decide (entries = ∅))
  end.

(** [a or b] *)
Definition py_or (a b : pyval) : pyval := if truthy a then a else b.

(** [d.get(key)] and [d.get(key, default)] *)
Definition dict_get (d : gmap string pyval) (key : string) : pyval :=
  default PNone (d !! key).
Definition dict_get_default (d : gmap string pyval) (key : string)
    (dflt : pyval) : pyval :=
  default dflt (d !! key).

(** [key in d] *)
Definition dict_contains (d : gmap string pyval) (key : string) : bool :=
  bool_decide (is_Some (d !! key)).

(** [l[index]] on a list: a negative index counts from the end. *)
Definition list_getitem (l : list pyval) (index : Z) : result pyval :=
  let n := Z.of_nat (length l) in
  let i := if index <? 0 then index + n else index in
  if (0 <=? i) && (i <? n)
  then match l !! Z.to_nat i with
       | Some v => Ok v
       | None => Raise IndexError
       end
  else Raise IndexError.

(** *** Text *)

Definition code (c : ascii) : N := N_of_ascii c.

(** The double quote and the line feed. *)
Definition DQUOTE : ascii := "034"%char.
Definition LF : ascii := "010"%char.

(** [c.isspace()], the characters [str.strip()] removes. *)
Definition isspace (c : ascii) : bool :=
  let n := code c in
  ((9 <=? n) && (n <=? 13) || (28 <=? n) && (n <=? 32)
   || (n =? 133) || (n =? 160))%N.

(** The decimal digits, [\d] of [re] on text. *)
Definition isdigit (c : ascii) : bool :=
  let n := code c in ((48 <=? n) && (n <=? 57))%N.

Fixpoint lstrip_by (p : ascii -> bool) (s : string) : string :=
  match s with
  | String c rest => if p c then lstrip_by p rest else s
  | EmptyString => EmptyString
  end.

Fixpoint rstrip_by (p : ascii -> bool) (s : string) : string :=
  match s with
  | String c rest =>
      match rstrip_by p rest with
      | EmptyString => if p c then EmptyString else String c EmptyString
      | kept => String c kept
      end
  | EmptyString => EmptyString
  end.

(** [s.strip()] *)
Definition strip (s : string) : string := rstrip_by isspace (lstrip_by isspace s).

(** [not s or not s.strip()] *)
Definition blank (s : string) : bool :=
  (String.length s =? 0)%nat || (String.length (strip s) =? 0)%nat.

(** [s[i]] for [0 <= i] *)
Definition str_getitem (s : string) (i : nat) : result ascii :=
  match String.get i s with
  | Some c => Ok c
  | None => Raise IndexError
  end.

(** [s[start:stop]] with Python's treatment of negative and
    out-of-range bounds. *)
Definition clamp (len i : Z) : Z :=
  Z.max 0 (Z.min len (if i <? 0 then i + len else i)).
Definition slice (s : string) (start stop : Z) : string :=
  let len := Z.of_nat (String.length s) in
  let a := clamp len start in
  let b := clamp len stop in
  String.substring (Z.to_nat a) (Z.to_nat (b - a)) s.

(** [s[start:]] *)
Definition slice_from (s : string) (start : nat) : string :=
  slice s (Z.of_nat start) (Z.of_nat (String.length s)).

(** [s.find(c, start)] for a one-character needle; [None] is [-1]. *)
Fixpoint find_in (c : ascii) (s : string) (at_ : nat) : option nat :=
  match s with
  | EmptyString => None
  | String x rest =>
      if Ascii.eqb x c then Some at_ else find_in c rest (S at_)
  end.
Definition find (s : string) (c : ascii) (start : nat) : option nat :=
  find_in c (slice_from s start) start.

(** [s.startswith(c)] and [s.endswith(c)] for a one-character [c]. *)
Definition startswith (s : string) (c : ascii) : bool :=
  match s with
  | String x _ => Ascii.eqb x c
  | EmptyString => false
  end.
Fixpoint endswith (s : string) (c : ascii) : bool :=
  match s with
  | EmptyString => false
  | String x EmptyString => Ascii.eqb x c
  | String _ rest => endswith rest c
  end.

(** [c in s] for a one-character [c]. *)
Fixpoint str_contains (s : string) (c : ascii) : bool :=
  match s with
  | EmptyString => false
  | String x rest => Ascii.eqb x c || str_contains rest c
  end.

(** [s.split(c, 1)] when [c] occurs in [s]: the text before the first
    occurrence and the text after it; a one-element list otherwise. *)
Fixpoint split_once (s : string) (c : ascii) : list string :=
  match s with
  | EmptyString => [EmptyString]
  | String x rest =>
      if Ascii.eqb x c then [EmptyString; rest]
      else match split_once rest c with
           | before :: others => String x before :: others
           | [] => []
           end
  end.

(** *** [int(text)]

    Around the number [int] skips the white space below (not the
    separators 28 to 31 that [strip] removes); the number is an optional
    sign and decimal digits, single underscores allowed between two
    digits; more than [int_max_str_digits] digits are refused. *)

Definition int_space (c : ascii) : bool :=
  let n := code c in
  ((9 <=? n) && (n <=? 13) || (n =? 32) || (n =? 133) || (n =? 160))%N.

Definition int_max_str_digits : nat := 4300.

Fixpoint digits_value (s : string) (acc : Z) (count : nat)
    (after_digit : bool) : option (Z * nat) :=
  match s with
  | EmptyString => if after_digit then Some (acc, count) else None
  | String c rest =>
      if isdigit c
      then digits_value rest (10 * acc + Z.of_N (code c - 48)) (S count) true
      else if Ascii.eqb c "_" && after_digit
           then digits_value rest acc count false
           else None
  end.

Definition int_of_str (s : string) : result Z :=
  let t := rstrip_by int_space (lstrip_by int_space s) in
  let '(negative, body) :=
    match t with
    | String c rest =>
        if Ascii.eqb c "-" then (true, rest)
        else if Ascii.eqb c "+" then (false, rest)
        else (false, t)
    | EmptyString => (false, t)
    end in
  match digits_value body 0 0 false with
  | Some (v, count) =>
      if (int_max_str_digits <? count)%nat then Raise ValueError
      else Ok (if negative then - v else v)
  | None => Raise ValueError
  end.

End Py.

(* ===================================================================== *)
(** ** action_result/utils.py                                             *)
(* ===================================================================== *)

Module Utils.
Import Py.

(** What one pass through the body of the [while] loop can do: go round
    again with a new state, [return], [break], or raise. *)
Inductive flow (A : Type) : Type :=
| Next (a : A)
| Return (v : pyval)
| Break
| Throw (e : exn).
Arguments Next {A} a.
Arguments Return {A} v.
Arguments Break {A}.
Arguments Throw {A} e.

#[local] Instance flow_bind : MBind flow := fun A B k m =>
  match m with
  | Next a => k a
  | Return v => Return v
  | Break => Break
  | Throw e => Throw e
  end.

Definition lift {A} (r : result A) : flow A :=
  match r with Ok a => Next a | Raise e => Throw e end.

(** [re.match] of the pattern of line 85 on [s]: group 1 is the longest
    prefix of [s] free of dots and square brackets, and there is no match
    when that prefix is empty. *)
Definition is_separator (c : ascii) : bool :=
  Ascii.eqb c "." || Ascii.eqb c "[" || Ascii.eqb c "]".
Fixpoint take_key (s : string) : string :=
  match s with
  | String c rest =>
      if is_separator c then EmptyString else String c (take_key rest)
  | EmptyString => EmptyString
  end.
Definition match_key (s : string) : option string :=
  match take_key s with
  | EmptyString => None
  | key => Some key
  end.

(** [if -len(current) <= index < len(current): current = current[index]
     else: return None] *)
Definition index_list (current : list pyval) (index : Z) : flow pyval :=
  let n := Z.of_nat (length current) in
  if (- n <=? index) && (index <? n)
  then lift (list_getitem current index)
  else Return PNone.

(** The bracket step (lines 54 to 77): the new [current] for the content
    of a bracket. *)
Definition is_quoted (bracket_content : string) : bool :=
  startswith bracket_content DQUOTE && endswith bracket_content DQUOTE
  || startswith bracket_content "'" && endswith bracket_content "'".

Definition bracket_lookup (current : pyval) (bracket_content : string)
    : flow pyval :=
  if is_quoted bracket_content then
    let key := slice bracket_content 1 (-1) in
    match current with
    | PDict d => Next (dict_get d key)
    | _ => Return PNone
    end
  else
    match int_of_str bracket_content with
    | Ok index =>
        match current with
        | PList l => index_list l index
        | _ => Return PNone
        end
    | Raise ValueError => Return PNone
    | Raise e => Throw e
    end.

(** The dotted step (lines 91 to 106): the new [current] for a bare
    token. *)
Definition token_lookup (current : pyval) (key : string) : flow pyval :=
  match current with
  | PList l =>
      match int_of_str key with
      | Ok index => index_list l index
      | Raise ValueError => Return PNone
      | Raise e => Throw e
      end
  | PDict d => Next (dict_get d key)
  | _ => Return PNone
  end.

(** The body of [while pos < len(path)]. *)
Definition loop_body (path : string) (current : pyval) (pos : nat)
    : flow (pyval * nat) :=
  c ← lift (str_getitem path pos);
  if Ascii.eqb c "." then Next (current, (pos + 1)%nat)
  else if Ascii.eqb c "[" then
    match find path "]" pos with
    | None => Return PNone
    | Some end_bracket =>
        let bracket_content :=
          slice path (Z.of_nat pos + 1) (Z.of_nat end_bracket) in
        current ← bracket_lookup current bracket_content;
        let pos := (end_bracket + 1)%nat in
        if is_None current then Return PNone else Next (current, pos)
    end
  else
    match match_key (slice_from path pos) with
    | None => Break
    | Some key =>
        current ← token_lookup current key;
        let pos := (pos + String.length key)%nat in
        if is_None current then Return PNone else Next (current, pos)
    end.

(** The loop, run for at most [fuel] passes. *)
Fixpoint while_loop (fuel : nat) (path : string) (current : pyval)
    (pos : nat) : result pyval :=
  if (pos <? String.length path)%nat then
    match fuel with
    | O => Raise FuelExhausted
    | S fuel' =>
        match loop_body path current pos with
        | Next (current', pos') => while_loop fuel' path current' pos'
        | Return v => Ok v
        | Break => Ok current
        | Throw e => Raise e
        end
    end
  else Ok current.

(** [extract_data_at_path(data, path)]; every pass consumes at least one
    character of the path, so its length is fuel enough
    ([while_loop_fuel] below). *)
Definition extract_data_at_path (data : pyval) (path : option string)
    : result pyval :=
  match path with
  | None => Ok data
  | Some path =>
      if (String.length (strip path) =? 0)%nat then Ok data
      else
        let current := data in
        let path := strip path in
        let pos := 0%nat in
        while_loop (String.length path) path current pos
  end.

(** [c.lower()] for one character: the capital letters A to Z and the
    capital letters of the range 192 to 222 (215, the multiplication
    sign, is none) move up by 32. *)
Definition lower_char (c : ascii) : ascii :=
  let n := code c in
  if ((65 <=? n) && (n <=? 90)
      || (192 <=? n) && (n <=? 222) && negb (n =? 215))%N
  then ascii_of_N (n + 32)
  else c.

(** [s.lower()] *)
Fixpoint lower (s : string) : string :=
  match s with
  | EmptyString => EmptyString
  | String c rest => String (lower_char c) (lower rest)
  end.

(** [s in words] for a tuple of texts. *)
Definition in_words (s : string) (words : list string) : bool :=
  existsb (String.eqb s) words.

(** [convert_to_bool(value)]: [Some b] for the boolean [b], [None] for
    Python's [None]. *)
Definition convert_to_bool (value : pyval) : option bool :=
  match value with
  | PBool b => Some b
  | PInt n => Some (truthy (PInt n))
  | PStr value =>
      let value_lower := strip (lower value) in
      if in_words value_lower ["true"; "yes"; "on"; "1"] then Some true
      else if in_words value_lower ["false"; "no"; "off"; "0"] then Some false
      else None
  | _ => None
  end.

End Utils.


(* ===================================================================== *)
(** ** action_result/helpers.py                                           *)
(* ===================================================================== *)

Module Helpers.
Import Py.

(** Modelled from the spec: the constants [VALUE_TYPE_BOOLEAN],
    [VALUE_TYPE_NUMBER], [VALUE_TYPE_STRING] and [VALUE_TYPE_TIMESTAMP]
    of [action_result/const.py], which is not among the sources; the
    specification gives the four value kinds Boolean, Number, Text and
    Timestamp. *)
Inductive value_type_const : Type :=
| VALUE_TYPE_BOOLEAN
| VALUE_TYPE_NUMBER
| VALUE_TYPE_STRING
| VALUE_TYPE_TIMESTAMP.

(** The dictionary [suggestions], which always has these three keys. *)
Record suggestions : Type := Suggestions {
  value_type : value_type_const;
  unit_of_measurement : string;
  device_class : string
}.

(** One item of the timestamp pattern: [\d], a literal character, or
    the class [[T ]]. *)
Inductive atom : Type :=
| Digit
| Lit (c : ascii)
| OneOf (c1 c2 : ascii).

Definition atom_matches (a : atom) (c : ascii) : bool :=
  match a with
  | Digit => isdigit c
  | Lit x => Ascii.eqb c x
  | OneOf x y => Ascii.eqb c x || Ascii.eqb c y
  end.

(** [re.match] of a sequence of atoms: anchored at the start, anything
    may follow. *)
Fixpoint re_match (pattern : list atom) (s : string) : bool :=
  match pattern with
  | [] => true
  | a :: pattern' =>
      match s with
      | String c rest => atom_matches a c && re_match pattern' rest
      | EmptyString => false
      end
  end.

(** <<^\d{4}-\d{2}-\d{2}[T ]\d{2}:\d{2}:\d{2}>> *)
Definition iso_pattern : list atom :=
  [Digit; Digit; Digit; Digit; Lit "-"; Digit; Digit; Lit "-"; Digit; Digit;
   OneOf "T" " "; Digit; Digit; Lit ":"; Digit; Digit; Lit ":"; Digit; Digit].

Definition detect_value_type_and_suggestions (value : pyval) : suggestions :=
  let suggestions :=
    {| value_type := VALUE_TYPE_STRING;
       unit_of_measurement := "";
       device_class := "" |} in
  if is_None value then suggestions
  else if isinstance_bool value then
    {| value_type := VALUE_TYPE_BOOLEAN;
       unit_of_measurement := unit_of_measurement suggestions;
       device_class := device_class suggestions |}
  else if isinstance_int value || isinstance_float value then
    {| value_type := VALUE_TYPE_NUMBER;
       unit_of_measurement := unit_of_measurement suggestions;
       device_class := device_class suggestions |}
  else
    match value with
    | PStr value =>
        if re_match iso_pattern value then
          {| value_type := VALUE_TYPE_TIMESTAMP;
             unit_of_measurement := unit_of_measurement suggestions;
             device_class := "timestamp" |}
        else suggestions
    | _ => suggestions
    end.

End Helpers.


(* ===================================================================== *)
(** ** service_result/config_flow_handler/validators/yaml_validator.py    *)
(* ===================================================================== *)

Module YamlValidator.
Import Py.

(** What [yaml.safe_load] does with a text: a value, or [yaml.YAMLError]. *)
Inductive load_result : Type :=
| Loaded (v : pyval)
| YAMLError.

(** The tuple [(cleaned_data, action, entry_id, error_key)] that
    [parse_service_yaml] returns.  [action] and [entry_id] are whatever
    value the document holds there, [PNone] when there is none. *)
Record parsed_yaml : Type := ParsedYaml {
  cleaned_data : option (gmap string pyval);
  action : pyval;
  entry_id : pyval;
  error_key : option string
}.

(** [if key in d: x = d.pop(key)], with [x] initially [None]: the value
    taken out and the dictionary that is left. *)
Definition pop_if_present (d : gmap string pyval) (key : string)
    : pyval * gmap string pyval :=
  match d !! key with
  | Some v => (v, delete key d)
  | None => (PNone, d)
  end.

Section Collaborator.

(** PyYAML: [yaml.safe_load], and [yaml.dump] with
    [default_flow_style=False, allow_unicode=True]. *)
Variable safe_load : string -> load_result.
Variable dump : pyval -> string.

Definition validate_service_yaml (yaml_string : string)
    : bool * option string :=
  if blank yaml_string then (true, None)
  else
    match safe_load yaml_string with
    | Loaded parsed =>
        if negb (is_None parsed) && negb (isinstance_dict parsed)
        then (false, Some "yaml_not_dict")
        else (true, None)
    | YAMLError => (false, Some "yaml_parse_error")
    end.

Definition parse_service_yaml (yaml_string : string) : parsed_yaml :=
  if blank yaml_string then ParsedYaml (Some ∅) PNone PNone None
  else
    match safe_load yaml_string with
    | YAMLError => ParsedYaml None PNone PNone (Some "yaml_parse_error")
    | Loaded PNone => ParsedYaml (Some ∅) PNone PNone None
    | Loaded (PDict parsed) =>
        if dict_contains parsed "action" || dict_contains parsed "service"
        then
          let action :=
            py_or (dict_get parsed "action") (dict_get parsed "service") in
          let data_section := dict_get_default parsed "data" (PDict ∅) in
          match data_section with
          | PDict data_section =>
              let '(entry_id, cleaned_data) :=
                pop_if_present data_section "entry_id" in
              ParsedYaml (Some cleaned_data) action entry_id None
          | _ => ParsedYaml None action PNone (Some "yaml_not_dict")
          end
        else
          let '(entry_id, cleaned_data) := pop_if_present parsed "entry_id" in
          ParsedYaml (Some cleaned_data) PNone entry_id None
    | Loaded _ => ParsedYaml None PNone PNone (Some "yaml_not_dict")
    end.

Definition dict_to_yaml (data : gmap string pyval) : string :=
  if negb (truthy (PDict data)) then ""
  else strip (dump (PDict data)).

End Collaborator.

End YamlValidator.

(* ===================================================================== *)
(** ** service_result/config_flow_handler/config_flow.py                  *)
(* ===================================================================== *)

Module ConfigFlow.
Import Py.

(** [x in action] for the text [x] of one character [c]: containment in a
    text, membership in a list or among the keys of a dictionary; other
    values are not iterable. *)
Definition contains_text (action : pyval) (c : ascii) : result bool :=
  match action with
  | PStr s => Ok (str_contains s c)
  | PList items =>
      Ok (existsb (fun item =>
                     match item with
                     | PStr s => String.eqb s (String c EmptyString)
                     | _ => false
                     end) items)
  | PDict entries => Ok (dict_contains entries (String c EmptyString))
  | _ => Raise TypeError
  end.

(** [action.split(c, 1)]: only a text has the method. *)
Definition split_text (action : pyval) (c : ascii) : result (list string) :=
  match action with
  | PStr s => Ok (split_once s c)
  | _ => Raise AttributeError
  end.

(** [parts[i]] *)
Definition parts_getitem (parts : list string) (i : nat) : result string :=
  match parts !! i with
  | Some part => Ok part
  | None => Raise IndexError
  end.

Definition _extract_action_from_selector
    (action_data : option (gmap string pyval))
    : result (option (string * string)) :=
  match action_data with
  | None => Ok None
  | Some action_data =>
      if negb (truthy (PDict action_data)) then Ok None
      else
        let action := dict_get_default action_data "action" (PStr "") in
        if negb (truthy action) then Ok None
        else
          match contains_text action "." with
          | Raise e => Raise e
          | Ok false => Ok None
          | Ok true =>
              match split_text action "." with
              | Raise e => Raise e
              | Ok parts =>
                  match parts_getitem parts 0, parts_getitem parts 1 with
                  | Ok domain, Ok service_name =>
                      Ok (Some (domain, service_name))
                  | Raise e, _ | _, Raise e => Raise e
                  end
              end
          end
  end.

End ConfigFlow.


(* ===================================================================== *)
(** ** Notions of the specification                                       *)
(* ===================================================================== *)

Module Spec.
Import Py Utils.

(** The states the loop of [extract_data_at_path] passes through: from a
    state [(current, pos)] the loop reaches the states that its passes
    lead to. *)
Inductive reaches (path : string) : pyval * nat -> pyval * nat -> Prop :=
| reaches_here (s : pyval * nat) : reaches path s s
| reaches_pass (current : pyval) (pos : nat) (current' : pyval) (pos' : nat)
    (s : pyval * nat) :
    (pos < String.length path)%nat ->
    loop_body path current pos = Next (current', pos') ->
    reaches path (current', pos') s ->
    reaches path (current, pos) s.

(** A traversal step at [(current, pos)] yields [v]: the bracket starting
    at [pos], or the bare token starting there, looks [v] up in
    [current]. *)
Definition step_yields (path : string) (current : pyval) (pos : nat)
    (v : pyval) : Prop :=
  (exists end_bracket : nat,
      String.get pos path = Some "["%char
      /\ find path "]" pos = Some end_bracket
      /\ bracket_lookup current
           (slice path (Z.of_nat pos + 1) (Z.of_nat end_bracket)) = Next v)
  \/ (exists (c : ascii) (key : string),
      String.get pos path = Some c
      /\ Ascii.eqb c "." = false /\ Ascii.eqb c "[" = false
      /\ match_key (slice_from path pos) = Some key
      /\ token_lookup current key = Next v).

(** [v] lies in [root]: it is [root], an item of a sequence that lies in
    [root], or a value of a mapping that lies in [root]. *)
Inductive lies_in (root : pyval) : pyval -> Prop :=
| lies_in_root : lies_in root root
| lies_in_item (l : list pyval) (v : pyval) :
    lies_in root (PList l) -> v ∈ l -> lies_in root v
| lies_in_value (d : gmap string pyval) (key : string) (v : pyval) :
    lies_in root (PDict d) -> d !! key = Some v -> lies_in root v.

(** What a look-up can give: a value of the mapping or an item of the
    sequence that [current] is, or the return of [None]. *)
Definition lookup_sound (current : pyval) (r : flow pyval) : Prop :=
  match r with
  | Next v =>
      is_None v = false ->
      (exists (d : gmap string pyval) (key : string),
          current = PDict d /\ d !! key = Some v)
      \/ (exists l : list pyval, current = PList l /\ v ∈ l)
  | Return v => v = PNone
  | Break | Throw _ => False
  end.

(** A text of white space only. *)
Fixpoint all_space (s : string) : bool :=
  match s with
  | EmptyString => true
  | String c rest => isspace c && all_space rest
  end.

(** A key that can stand as a bare token at the start of a path: not
    empty, free of dots and square brackets, and not starting with white
    space. *)
Definition bare_key (key : string) : bool :=
  match key with
  | EmptyString => false
  | String c _ => negb (isspace c) && String.eqb (take_key key) key
  end.

(** The path that is the key [key] in double quotes between square
    brackets. *)
Definition quoted (key : string) : string :=
  "[" +:+ String DQUOTE (key +:+ String DQUOTE "]").

(** Modelled from the spec: [indented] and the [data:] wrapper of the
    round-trip law, which the sources do not have.  Every line of the
    serialised arguments is moved two columns to the right and the result
    is put under a top-level [data:] key. *)
Fixpoint indent_after (s : string) : string :=
  match s with
  | EmptyString => EmptyString
  | String c rest =>
      if Ascii.eqb c LF then String c ("  " +:+ indent_after rest)
      else String c (indent_after rest)
  end.
Definition indented (s : string) : string := "  " +:+ indent_after s.
Definition data_wrapper (body : string) : string :=
  "data:" +:+ String LF (indented body).

(** The same wrapper below an [action:] line naming the action [a]. *)
Definition action_wrapper (a body : string) : string :=
  "action: " +:+ a +:+ String LF (data_wrapper body).

(** The test of [parse_service_yaml] for the full-document form: the
    top-level mapping has the key [action] or the key [service]. *)
Definition full_document (top : gmap string pyval) : bool :=
  dict_contains top "action" || dict_contains top "service".

End Spec.

(* ===================================================================== *)
(** ** Documents of the specification and what PyYAML makes of them       *)
(* ===================================================================== *)

Module Documents.
Import Py YamlValidator.

(** The lines of a document, each ended by a line feed. *)
Fixpoint lines (ls : list string) : string :=
  match ls with
  | [] => EmptyString
  | l :: ls' => l +:+ String LF (lines ls')
  end.

Definition level_true : gmap string pyval := {[ "level" := PBool true ]}.

Definition doc_full : string :=
  lines ["action: dom.svc"; "data:"; "  entry_id: XYZ"; "  level: true"].
Definition doc_bare : string := lines ["level: true"].
Definition doc_bare_stripped : string := "level: true".
Definition doc_unterminated : string := lines ["a: [1, 2"].
Definition doc_sequence : string := lines ["- 1"; "- 2"].
Definition doc_comment : string := lines ["# nothing configured"].
Definition doc_data_only : string := "data:" +:+ String LF "  level: true".
Definition doc_action_data : string :=
  "action: dom.svc" +:+ String LF doc_data_only.
Definition doc_empty_action : string :=
  lines ["action: ''"; "service: dom.svc"].
Definition doc_both : string :=
  lines ["action: light.turn_on"; "service: light.turn_off"].
Definition doc_scalar_data : string := lines ["action: dom.svc"; "data: 5"].
Definition doc_numeric_id : string := lines ["entry_id: 123"; "level: true"].

(** [yaml.safe_load] on the documents above; a text outside the table is
    not used by any statement below and is answered with [YAMLError]. *)
Definition table : list (string * load_result) :=
  [ (doc_full,
      Loaded (PDict {[ "action" := PStr "dom.svc";
                       "data" := PDict {[ "entry_id" := PStr "XYZ";
                                          "level" := PBool true ]} ]}));
    (doc_bare, Loaded (PDict level_true));
    (doc_bare_stripped, Loaded (PDict level_true));
    (doc_unterminated, YAMLError);
    (doc_sequence, Loaded (PList [PInt 1; PInt 2]));
    (doc_comment, Loaded PNone);
    (doc_data_only, Loaded (PDict {[ "data" := PDict level_true ]}));
    (doc_action_data,
      Loaded (PDict {[ "action" := PStr "dom.svc";
                       "data" := PDict level_true ]}));
    (doc_empty_action,
      Loaded (PDict {[ "action" := PStr ""; "service" := PStr "dom.svc" ]}));
    (doc_both,
      Loaded (PDict {[ "action" := PStr "light.turn_on";
                       "service" := PStr "light.turn_off" ]}));
    (doc_scalar_data,
      Loaded (PDict {[ "action" := PStr "dom.svc"; "data" := PInt 5 ]}));
    (doc_numeric_id,
      Loaded (PDict {[ "entry_id" := PInt 123; "level" := PBool true ]})) ].

Fixpoint look_up (rows : list (string * load_result)) (text : string)
    : load_result :=
  match rows with
  | [] => YAMLError
  | (doc, r) :: rows' => if String.eqb doc text then r else look_up rows' text
  end.

Definition recorded_load (text : string) : load_result := look_up table text.

(** [yaml.dump] of the mapping [{level: True}], the only value the
    statements below serialise. *)
Definition recorded_dump (v : pyval) : string := lines ["level: true"].

End Documents.

Module MoreDocuments.
Import Py YamlValidator Documents.

(** Argument data with an argument named action, their serialisation by
    [yaml.dump] and what [yaml.safe_load] makes of it. *)
Definition toggle_arguments : gmap string pyval :=
  {[ "action" := PStr "toggle"; "level" := PBool true ]}.
Definition doc_toggle : string :=
  "action: toggle" +:+ String LF "level: true".
Definition toggle_dump (v : pyval) : string :=
  lines ["action: toggle"; "level: true"].
Definition toggle_load (text : string) : load_result :=
  look_up [(doc_toggle, Loaded (PDict toggle_arguments))] text.

(** A full document with a further key, target. *)
Definition doc_with_target : string :=
  lines ["action: dom.svc"; "data:"; "  level: true"; "target: {}"].
Definition target_load (text : string) : load_result :=
  look_up
    [ (doc_action_data,
        Loaded (PDict {[ "action" := PStr "dom.svc";
                         "data" := PDict level_true ]}));
      (doc_with_target,
        Loaded (PDict {[ "action" := PStr "dom.svc";
                         "data" := PDict level_true;
                         "target" := PDict ∅ ]})) ]
    text.

(** Documents whose action is a number: the integer 5 and the float 5.5,
    whose binary64 bits are 0x4016000000000000. *)
Definition doc_numeric_action : string := lines ["action: 5"].
Definition doc_float_action : string := lines ["action: 5.5"].
Definition five_and_a_half : pyval := PFloat 4617878467915022336.
Definition numeric_load (text : string) : load_result :=
  look_up
    [ (doc_numeric_action, Loaded (PDict {[ "action" := PInt 5 ]}));
      (doc_float_action, Loaded (PDict {[ "action" := five_and_a_half ]})) ]
    text.

End MoreDocuments.

Module RoundTrip.
Import Py YamlValidator Spec Documents.

(** What the round-trip law asks of PyYAML about one text [t], besides
    reading a serialisation back: nesting.  Whatever [t] loads as, [t]
    indented under [data:] loads as the mapping of data to that value,
    and the same below the line [action: a] as the mapping of action to
    the text [a] and of data to that value. *)
Definition nests (safe_load : string -> load_result) (a t : string) : Prop :=
  forall v : pyval,
    safe_load t = Loaded v ->
    safe_load (data_wrapper t) = Loaded (PDict {[ "data" := v ]})
    /\ safe_load (action_wrapper a t)
       = Loaded (PDict {[ "action" := PStr a; "data" := v ]}).

(** [yaml.dump] on the empty mapping and on the mapping of level to
    true, the two mappings serialised below. *)
Definition wrapper_dump (v : pyval) : string :=
  match v with
  | PDict entries =>
      if bool_decide (entries = ∅) then lines ["{}"] else lines ["level: true"]
  | _ => lines ["level: true"]
  end.

(** The wrappers around the empty text: [data:] with nothing below it. *)
Definition doc_data_nothing : string := "data:" +:+ String LF "  ".
Definition doc_action_data_nothing : string :=
  "action: dom.svc" +:+ String LF doc_data_nothing.

(** [yaml.safe_load] on the serialisations and on their wrappers. *)
Definition wrapper_load (text : string) : load_result :=
  look_up
    [ ("", Loaded PNone);
      ("{}", Loaded (PDict ∅));
      (doc_data_nothing, Loaded (PDict {[ "data" := PNone ]}));
      (doc_action_data_nothing,
        Loaded (PDict {[ "action" := PStr "dom.svc"; "data" := PNone ]}));
      (doc_bare_stripped, Loaded (PDict level_true));
      (doc_data_only, Loaded (PDict {[ "data" := PDict level_true ]}));
      (doc_action_data,
        Loaded (PDict {[ "action" := PStr "dom.svc";
                         "data" := PDict level_true ]})) ]
    text.

End RoundTrip.


(* ===================================================================== *)
(** ** service_result/const.py                                            *)
(* ===================================================================== *)

Module Const.

Definition CONF_NAME : string := "name".
Definition CONF_SERVICE_ACTION : string := "service_action".
Definition CONF_SERVICE_DATA_YAML : string := "service_data_yaml".
Definition CONF_SCAN_INTERVAL : string := "scan_interval".
Definition DEFAULT_SCAN_INTERVAL_SECONDS : Z := 300.

End Const.

(* ===================================================================== *)
(** ** service_result/config_flow_handler/schemas/config.py               *)
(* ===================================================================== *)

Module Schemas.
Import Py Const.

(** The selectors the schemas use: [selector.TextSelector] of type TEXT,
    single-line or multiline, and [selector.ActionSelector]. *)
Inductive selector : Type :=
| TextSelector (multiline : bool)
| ActionSelector.

(** [vol.Required] and [vol.Optional]. *)
Inductive marker : Type :=
| Required
| Optional.

(** One entry of the dictionary a [vol.Schema] is built from: the marker
    with its key and its default ([None] is [vol.UNDEFINED]) and the
    selector it maps to. *)
Record field : Type := Field {
  field_marker : marker;
  field_key : string;
  field_default : option pyval;
  field_selector : selector
}.

(** The default a schema gives the key [key]: [None] when the schema has
    no such key or leaves its default undefined. *)
Fixpoint default_of (schema : list field) (key : string) : option pyval :=
  match schema with
  | [] => None
  | f :: schema' =>
      if String.eqb (field_key f) key then field_default f
      else default_of schema' key
  end.

Definition get_user_schema (defaults : option (gmap string pyval))
    : list field :=
  let defaults :=
    match defaults with
    | Some d => if truthy (PDict d) then d else ∅
    | None => ∅
    end in
  [ Field Required CONF_NAME (defaults !! CONF_NAME) (TextSelector false);
    Field Optional CONF_SERVICE_ACTION (defaults !! CONF_SERVICE_ACTION)
      ActionSelector;
    Field Optional CONF_SERVICE_DATA_YAML
      (Some (dict_get_default defaults CONF_SERVICE_DATA_YAML (PStr "")))
      (TextSelector true) ].

Section Formatting.

(** [str(v)] for a value [v] that is not a text. *)
Variable str_of : pyval -> string.

(** What an f-string puts for [v]. *)
Definition format (v : pyval) : string :=
  match v with
  | PStr s => s
  | _ => str_of v
  end.

Definition get_reconfigure_schema (current_data : gmap string pyval)
    : list field :=
  let service_action :=
    dict_get_default current_data CONF_SERVICE_ACTION (PDict ∅) in
  let service_action :=
    if negb (truthy service_action) then
      let domain := dict_get_default current_data "service_domain" (PStr "") in
      let name := dict_get_default current_data "service_name" (PStr "") in
      if truthy domain && truthy name
      then PDict {[ "action" := PStr (format domain +:+ "." +:+ format name) ]}
      else service_action
    else service_action in
  [ Field Required CONF_NAME
      (Some (dict_get_default current_data CONF_NAME (PStr "")))
      (TextSelector false);
    Field Optional CONF_SERVICE_ACTION
      (if truthy service_action then Some service_action else None)
      ActionSelector;
    Field Optional CONF_SERVICE_DATA_YAML
      (Some (dict_get_default current_data CONF_SERVICE_DATA_YAML (PStr "")))
      (TextSelector true) ].

End Formatting.

End Schemas.

(* ===================================================================== *)
(** ** config_flow.py: the steps of the flow                              *)
(* ===================================================================== *)

Module Flow.
Import Py Const YamlValidator ConfigFlow Schemas.

(** What [hass.services.async_call] does: it returns the response of the
    service ([None] when the service has none) or raises
    [ServiceNotFound], another [HomeAssistantError], or another
    exception derived from [Exception]. *)
Inductive call_outcome : Type :=
| Responded (response : pyval)
| RaisedServiceNotFound
| RaisedHomeAssistantError
| RaisedException.

(** What a step returns: [async_create_entry],
    [async_update_reload_and_abort] or [async_show_form] with their
    arguments. *)
Inductive flow_result : Type :=
| CreateEntry (title : pyval) (data options : gmap string pyval)
| UpdateReloadAndAbort (entry data : gmap string pyval)
| ShowForm (step_id : string) (data_schema : list field)
    (errors : gmap string string).

(** A step returns, raises one of the exceptions of the built-ins, or
    reads a local variable that was never assigned. *)
Inductive outcome (A : Type) : Type :=
| Done (a : A)
| Raised (e : exn)
| UnboundLocalError.
Arguments Done {A} a.
Arguments Raised {A} e.
Arguments UnboundLocalError {A}.

(** The local variables a step has after the block that handles the
    user input (lines 190 to 239 and, word for word, lines 288 to 334);
    [None] stands for a variable that is [None] or not assigned. *)
Record locals : Type := Locals {
  errors : gmap string string;
  updated_input : gmap string pyval;
  action_selector_data : pyval;
  domain : option string;
  service_name : option string;
  clean_yaml : option string
}.

(** [bool(errors)] for the dictionary of errors. *)
Definition truthy_errors (errors : gmap string string) : bool :=
  negb (bool_decide (errors = ∅)).

(** [not x] for a text or [None]. *)
Definition not_text (x : option string) : bool :=
  match x with
  | Some s => (String.length s =? 0)%nat
  | None => true
  end.

Section Hass.

Variable safe_load : string -> load_result.
Variable dump : pyval -> string.
Variable has_service : string -> string -> bool.
Variable async_call : string -> string -> pyval -> call_outcome.

Definition _validate_service_call (domain service : string)
    (service_data : pyval) : bool * option string :=
  match async_call domain service service_data with
  | RaisedServiceNotFound => (false, Some "service_not_found")
  | RaisedHomeAssistantError => (false, Some "service_call_failed")
  | RaisedException => (false, Some "service_call_failed")
  | Responded response =>
      if is_None response then (true, None) else (true, None)
  end.

(** [parse_service_yaml(service_data_yaml)] for the value found in the
    user input: a text is parsed; a value that is false ([not
    yaml_string]) gives the empty result; any other value has no
    [strip]. *)
Definition parse_value (service_data_yaml : pyval) : result parsed_yaml :=
  match service_data_yaml with
  | PStr s => Ok (parse_service_yaml safe_load s)
  | _ =>
      if truthy service_data_yaml then Raise AttributeError
      else Ok (ParsedYaml (Some ∅) PNone PNone None)
  end.

(** Lines 203 to 217: the domain and the name of the service, from the
    action of the YAML text first and from the selection second, with
    the selection and the updates of the input as they stand after. *)
Definition determine_action (yaml_action action_selector_data : pyval)
    (updated_input : gmap string pyval)
    : result (option string * option string * pyval * gmap string pyval) :=
  if truthy yaml_action then
    match contains_text yaml_action "." with
    | Raise e => Raise e
    | Ok false => Ok (None, None, action_selector_data, updated_input)
    | Ok true =>
        match split_text yaml_action "." with
        | Raise e => Raise e
        | Ok [domain; service_name] =>
            let action_selector_data := PDict {[ "action" := yaml_action ]} in
            Ok (Some domain, Some service_name, action_selector_data,
                <[CONF_SERVICE_ACTION := action_selector_data]> updated_input)
        | Ok _ => Raise ValueError
        end
    end
  else if truthy action_selector_data then
    match action_selector_data with
    | PDict selection =>
        match _extract_action_from_selector (Some selection) with
        | Raise e => Raise e
        | Ok (Some (domain, service_name)) =>
            Ok (Some domain, Some service_name, action_selector_data,
                updated_input)
        | Ok None => Ok (None, None, action_selector_data, updated_input)
        end
    | _ => Raise AttributeError
    end
  else Ok (None, None, action_selector_data, updated_input).

(** Lines 228 to 234: the data the service is called with to validate
    it. *)
Definition validation_data_of (clean_yaml : string) : pyval :=
  if negb (String.length clean_yaml =? 0)%nat then
    match safe_load clean_yaml with
    | Loaded validation_data =>
        if is_None validation_data then PDict ∅ else validation_data
    | YAMLError => PDict ∅
    end
  else PDict ∅.

(** The block [if user_input is not None:] up to the test of
    [errors]. *)
Definition handle_input (user_input : gmap string pyval) : result locals :=
  let service_data_yaml :=
    dict_get_default user_input CONF_SERVICE_DATA_YAML (PStr "") in
  let action_selector_data := dict_get user_input CONF_SERVICE_ACTION in
  match parse_value service_data_yaml with
  | Raise e => Raise e
  | Ok parsed =>
      if negb (not_text (error_key parsed)) then
        Ok (Locals {[ "base" := default "" (error_key parsed) ]} ∅
              action_selector_data None None None)
      else
        match determine_action (action parsed) action_selector_data ∅ with
        | Raise e => Raise e
        | Ok (domain, service_name, action_selector_data, updated_input) =>
            if not_text domain || not_text service_name then
              Ok (Locals {[ "base" := "no_service_selected" ]} updated_input
                    action_selector_data domain service_name None)
            else if negb (has_service (default "" domain)
                            (default "" service_name)) then
              Ok (Locals {[ "base" := "service_not_found" ]} updated_input
                    action_selector_data domain service_name None)
            else
              let clean_yaml :=
                dict_to_yaml dump (default ∅ (cleaned_data parsed)) in
              let updated_input :=
                <[CONF_SERVICE_DATA_YAML := PStr clean_yaml]> updated_input in
              let validation_data := validation_data_of clean_yaml in
              let '(success, error_key) :=
                _validate_service_call (default "" domain)
                  (default "" service_name) validation_data in
              let errors : gmap string string :=
                if negb success && negb (not_text error_key)
                then {[ "base" := default "" error_key ]}
                else ∅ in
              Ok (Locals errors updated_input action_selector_data
                    domain service_name (Some clean_yaml))
        end
  end.

(** The data stored for the entry (lines 247 to 251 and 341 to 345) and
    its name (lines 243 and 337). *)
Definition entry_name (user_input : gmap string pyval)
    (domain service_name : string) : pyval :=
  dict_get_default user_input CONF_NAME
    (PStr (domain +:+ "." +:+ service_name)).

Definition entry_data (name : pyval) (st : locals) (clean_yaml : string)
    : gmap string pyval :=
  {[ CONF_NAME := name;
     CONF_SERVICE_ACTION := action_selector_data st;
     CONF_SERVICE_DATA_YAML :=
       dict_get_default (updated_input st) CONF_SERVICE_DATA_YAML
         (PStr clean_yaml) ]}.

Definition async_step_user (user_input : option (gmap string pyval))
    : outcome flow_result :=
  match user_input with
  | None => Done (ShowForm "user" (get_user_schema None) ∅)
  | Some user_input =>
      match handle_input user_input with
      | Raise e => Raised e
      | Ok st =>
          if negb (truthy_errors (errors st)) then
            match domain st, service_name st, clean_yaml st with
            | Some domain, Some service_name, Some clean_yaml =>
                let name := entry_name user_input domain service_name in
                Done (CreateEntry name (entry_data name st clean_yaml)
                        {[ CONF_SCAN_INTERVAL :=
                             PInt DEFAULT_SCAN_INTERVAL_SECONDS ]})
            | _, _, _ => UnboundLocalError
            end
          else
            let user_input :=
              if truthy (PDict (updated_input st))
              then updated_input st ∪ user_input
              else user_input in
            Done (ShowForm "user" (get_user_schema (Some user_input))
                    (errors st))
      end
  end.

Section Reconfigure.

Variable str_of : pyval -> string.

(** [entry] stands for the data of the entry that
    [self._get_reconfigure_entry()] returns. *)
Definition async_step_reconfigure (entry : gmap string pyval)
    (user_input : option (gmap string pyval)) : outcome flow_result :=
  match user_input with
  | None =>
      Done (ShowForm "reconfigure" (get_reconfigure_schema str_of entry) ∅)
  | Some user_input =>
      match handle_input user_input with
      | Raise e => Raised e
      | Ok st =>
          if negb (truthy_errors (errors st)) then
            match domain st, service_name st, clean_yaml st with
            | Some domain, Some service_name, Some clean_yaml =>
                let name := entry_name user_input domain service_name in
                Done (UpdateReloadAndAbort entry
                        (entry_data name st clean_yaml))
            | _, _, _ => UnboundLocalError
            end
          else
            Done (ShowForm "reconfigure" (get_reconfigure_schema str_of entry)
                    (errors st))
      end
  end.

End Reconfigure.

End Hass.

End Flow.

Module FlowSpec.
Import Py Const YamlValidator ConfigFlow Schemas Flow.

(** The error keys a form can show. *)
Definition error_keys : list string :=
  ["yaml_parse_error"; "yaml_not_dict"; "no_service_selected";
   "service_not_found"; "service_call_failed"].

Section Hass.

Variable safe_load : string -> load_result.
Variable dump : pyval -> string.
Variable has_service : string -> string -> bool.
Variable async_call : string -> string -> pyval -> call_outcome.

(** The user input [user_input] passed all checks and [data] is what is
    stored for it: its YAML text parsed without error; the action found
    has a domain and a name that are not empty; the service exists; the
    call that validates it returned; the YAML text stored is the
    serialisation of the parsed argument data, which have no entry id;
    the name stored is the name given or else domain.name. *)
Definition passed_all_checks (user_input data : gmap string pyval) : Prop :=
  exists (parsed : parsed_yaml) (domain service_name : string)
         (response : pyval),
    let cleaned := default ∅ (cleaned_data parsed) in
    let clean_yaml := dict_to_yaml dump cleaned in
    parse_value safe_load
      (dict_get_default user_input CONF_SERVICE_DATA_YAML (PStr ""))
    = Ok parsed
    /\ error_key parsed = None
    /\ domain <> "" /\ service_name <> ""
    /\ has_service domain service_name = true
    /\ async_call domain service_name
         (validation_data_of safe_load clean_yaml) = Responded response
    /\ cleaned !! "entry_id" = None
    /\ data !! CONF_SERVICE_DATA_YAML = Some (PStr clean_yaml)
    /\ data !! CONF_NAME
       = Some (dict_get_default user_input CONF_NAME
                 (PStr (domain +:+ "." +:+ service_name))).

End Hass.

(** A Home Assistant with the one service dom.svc, which answers every
    call with no response. *)
Definition only_dom_svc (domain service_name : string) : bool :=
  String.eqb domain "dom" && String.eqb service_name "svc".
Definition no_response (domain service_name : string) (data : pyval)
    : call_outcome :=
  Responded PNone.

End FlowSpec.

(* ===================================================================== *)
(** ** Properties of the path evaluator                                   *)
(* ===================================================================== *)

Section PathEvaluator.
Import Py Utils Spec.

(** *** Text built-ins *)

Lemma get_lt (s : string) (i : nat) :
  (i < String.length s)%nat -> exists c, String.get i s = Some c.
Proof.
  revert i. induction s as [|x s IH]; intros i Hi; simpl in *; [lia|].
  destruct i as [|i]; [eauto|]. apply IH. lia.
Qed.

Lemma get_Some_lt (s : string) (i : nat) (c : ascii) :
  String.get i s = Some c -> (i < String.length s)%nat.
Proof.
  revert i. induction s as [|x s IH]; intros i Hi; simpl in *; [discriminate|].
  destruct i as [|i]; [lia|]. apply IH in Hi. lia.
Qed.

Lemma find_in_ge (c : ascii) (s : string) (start e : nat) :
  find_in c s start = Some e -> (start <= e)%nat.
Proof.
  revert start. induction s as [|x s IH]; intros start H; simpl in H.
  - discriminate.
  - destruct (Ascii.eqb x c).
    + injection H as <-. lia.
    + apply IH in H. lia.
Qed.

Lemma find_ge (path : string) (c : ascii) (pos e : nat) :
  find path c pos = Some e -> (pos <= e)%nat.
Proof. apply find_in_ge. Qed.

Lemma match_key_length (s key : string) :
  match_key s = Some key -> (0 < String.length key)%nat.
Proof.
  unfold match_key. destruct (take_key s) as [|x k]; [discriminate|].
  intros [= <-]. simpl. lia.
Qed.

(** *** The look-ups raise nothing *)

Lemma int_of_str_raises (s : string) (e : exn) :
  int_of_str s = Raise e -> e = ValueError.
Proof.
  unfold int_of_str.
  destruct (rstrip_by int_space (lstrip_by int_space s)) as [|c rest].
  - simpl. congruence.
  - destruct (Ascii.eqb c "-"); [|destruct (Ascii.eqb c "+")];
      match goal with
      | |- context [digits_value ?b 0 0 false] =>
          destruct (digits_value b 0 0 false) as [[v count]|]
      end;
      try destruct (int_max_str_digits <? count)%nat; congruence.
Qed.

Lemma list_getitem_in_range (l : list pyval) (index : Z) :
  - Z.of_nat (length l) <= index < Z.of_nat (length l) ->
  exists v, list_getitem l index = Ok v.
Proof.
  intros Hr. unfold list_getitem.
  set (i := if index <? 0 then index + Z.of_nat (length l) else index).
  assert (Hi : 0 <= i < Z.of_nat (length l)).
  { subst i. destruct (Z.ltb_spec index 0); lia. }
  replace ((0 <=? i) && (i <? Z.of_nat (length l))) with true.
  2:{ symmetry. apply andb_true_iff. split; [apply Z.leb_le|apply Z.ltb_lt]; lia. }
  destruct (lookup_lt_is_Some_2 l (Z.to_nat i)) as [v Hv]; [lia|].
  rewrite Hv. eauto.
Qed.

Lemma index_list_no_throw (l : list pyval) (index : Z) (e : exn) :
  index_list l index <> Throw e.
Proof.
  unfold index_list.
  destruct ((- Z.of_nat (length l) <=? index) && (index <? Z.of_nat (length l)))
    eqn:Hg; [|discriminate].
  apply andb_true_iff in Hg as [H1%Z.leb_le H2%Z.ltb_lt].
  destruct (list_getitem_in_range l index) as [v ->]; [lia|]. discriminate.
Qed.

Lemma bracket_lookup_no_throw (current : pyval) (content : string) (e : exn) :
  bracket_lookup current content <> Throw e.
Proof.
  unfold bracket_lookup. destruct (is_quoted content).
  - destruct current; discriminate.
  - destruct (int_of_str content) as [index|e'] eqn:Hi.
    + destruct current; try discriminate. apply index_list_no_throw.
    + apply int_of_str_raises in Hi as ->. discriminate.
Qed.

Lemma token_lookup_no_throw (current : pyval) (key : string) (e : exn) :
  token_lookup current key <> Throw e.
Proof.
  unfold token_lookup. destruct current; try discriminate.
  destruct (int_of_str key) as [index|e'] eqn:Hi.
  - apply index_list_no_throw.
  - apply int_of_str_raises in Hi as ->. discriminate.
Qed.

(** *** One pass of the loop *)

(** The pass written out by cases on the character at [pos]. *)
Lemma loop_body_at (path : string) (current : pyval) (pos : nat) (c : ascii) :
  String.get pos path = Some c ->
  loop_body path current pos =
    if Ascii.eqb c "." then Next (current, (pos + 1)%nat)
    else if Ascii.eqb c "[" then
      match find path "]" pos with
      | None => Return PNone
      | Some end_bracket =>
          match bracket_lookup current
                  (slice path (Z.of_nat pos + 1) (Z.of_nat end_bracket)) with
          | Next v =>
              if is_None v then Return PNone
              else Next (v, (end_bracket + 1)%nat)
          | Return v => Return v
          | Break => Break
          | Throw e => Throw e
          end
      end
    else
      match match_key (slice_from path pos) with
      | None => Break
      | Some key =>
          match token_lookup current key with
          | Next v =>
              if is_None v then Return PNone
              else Next (v, (pos + String.length key)%nat)
          | Return v => Return v
          | Break => Break
          | Throw e => Throw e
          end
      end.
Proof.
  intros Hc. unfold loop_body, str_getitem. rewrite Hc. simpl.
  destruct (Ascii.eqb c "."); [reflexivity|].
  destruct (Ascii.eqb c "["); [destruct (find path "]" pos)|
                               destruct (match_key (slice_from path pos))];
    reflexivity.
Qed.

Lemma loop_body_progress (path : string) (current : pyval) (pos : nat)
    (current' : pyval) (pos' : nat) :
  (pos < String.length path)%nat ->
  loop_body path current pos = Next (current', pos') -> (pos < pos')%nat.
Proof.
  intros Hlt. destruct (get_lt path pos Hlt) as [c Hc].
  rewrite (loop_body_at _ _ _ _ Hc).
  destruct (Ascii.eqb c "."); [intros [= _ <-]; lia|].
  destruct (Ascii.eqb c "[").
  - destruct (find path "]" pos) as [e|] eqn:Hf; [|discriminate].
    apply find_ge in Hf.
    destruct (bracket_lookup _ _) as [v| | |]; try discriminate.
    destruct (is_None v); [discriminate|]. intros [= _ <-]. lia.
  - destruct (match_key _) as [key|] eqn:Hk; [|discriminate].
    apply match_key_length in Hk.
    destruct (token_lookup _ _) as [v| | |]; try discriminate.
    destruct (is_None v); [discriminate|]. intros [= _ <-]. lia.
Qed.

Lemma loop_body_no_throw (path : string) (current : pyval) (pos : nat)
    (e : exn) :
  (pos < String.length path)%nat -> loop_body path current pos <> Throw e.
Proof.
  intros Hlt. destruct (get_lt path pos Hlt) as [c Hc].
  rewrite (loop_body_at _ _ _ _ Hc).
  destruct (Ascii.eqb c "."); [discriminate|].
  destruct (Ascii.eqb c "[").
  - destruct (find path "]" pos) as [eb|]; [|discriminate].
    destruct (bracket_lookup _ _) as [v| | |e'] eqn:Hb; try discriminate.
    + destruct (is_None v); discriminate.
    + exfalso. exact (bracket_lookup_no_throw _ _ _ Hb).
  - destruct (match_key _) as [key|]; [|discriminate].
    destruct (token_lookup _ _) as [v| | |e'] eqn:Hb; try discriminate.
    + destruct (is_None v); discriminate.
    + exfalso. exact (token_lookup_no_throw _ _ _ Hb).
Qed.

(** *** The loop *)

Lemma while_loop_done (fuel : nat) (path : string) (current : pyval)
    (pos : nat) :
  (String.length path <= pos)%nat -> while_loop fuel path current pos = Ok current.
Proof.
  intros H. destruct fuel; simpl;
    destruct (Nat.ltb_spec pos (String.length path)); (lia || reflexivity).
Qed.

Lemma while_loop_pass (fuel : nat) (path : string) (current : pyval)
    (pos : nat) :
  (pos < String.length path)%nat ->
  while_loop (S fuel) path current pos =
    match loop_body path current pos with
    | Next (current', pos') => while_loop fuel path current' pos'
    | Return v => Ok v
    | Break => Ok current
    | Throw e => Raise e
    end.
Proof.
  intros H. simpl. destruct (Nat.ltb_spec pos (String.length path)); [reflexivity|lia].
Qed.

(** With the characters that are left as fuel the loop returns. *)
Lemma while_loop_returns (path : string) (fuel : nat) :
  forall (current : pyval) (pos : nat),
    (String.length path - pos <= fuel)%nat ->
    exists v, while_loop fuel path current pos = Ok v.
Proof.
  induction fuel as [|fuel IH]; intros current pos Hf.
  - exists current. apply while_loop_done. lia.
  - destruct (Nat.lt_ge_cases pos (String.length path)) as [Hlt|Hge].
    2:{ exists current. apply while_loop_done. lia. }
    rewrite while_loop_pass by assumption.
    destruct (loop_body path current pos) as [[c' p']|v| |e] eqn:Hb; eauto.
    + apply IH. apply loop_body_progress in Hb; [lia|assumption].
    + exfalso. exact (loop_body_no_throw _ _ _ _ Hlt Hb).
Qed.

(** More fuel than that changes nothing. *)
Lemma while_loop_fuel (path : string) (fuel1 : nat) :
  forall (fuel2 : nat) (current : pyval) (pos : nat),
    (String.length path - pos <= fuel1)%nat ->
    (String.length path - pos <= fuel2)%nat ->
    while_loop fuel1 path current pos = while_loop fuel2 path current pos.
Proof.
  induction fuel1 as [|fuel1 IH]; intros fuel2 current pos H1 H2.
  - rewrite !while_loop_done by lia. reflexivity.
  - destruct (Nat.lt_ge_cases pos (String.length path)) as [Hlt|Hge].
    2:{ rewrite !while_loop_done by lia. reflexivity. }
    destruct fuel2 as [|fuel2]; [lia|].
    rewrite !while_loop_pass by assumption.
    destruct (loop_body path current pos) as [[c' p']|v| |e] eqn:Hb; try reflexivity.
    apply loop_body_progress in Hb; [|assumption].
    apply IH; lia.
Qed.

(** The result of the loop is the same from every state it passes
    through. *)
Lemma while_loop_reaches (path : string) (s s' : pyval * nat) :
  reaches path s s' ->
  forall fuel fuel' : nat,
    (String.length path - s.2 <= fuel)%nat ->
    (String.length path - s'.2 <= fuel')%nat ->
    while_loop fuel path s.1 s.2 = while_loop fuel' path s'.1 s'.2.
Proof.
  induction 1 as [s|current pos current' pos' s Hlt Hb Hr IH];
    intros fuel fuel' Hf Hf'; simpl in *.
  - apply while_loop_fuel; assumption.
  - destruct fuel as [|fuel]; [lia|].
    rewrite while_loop_pass by assumption. rewrite Hb.
    apply IH; [|assumption].
    apply loop_body_progress in Hb; [lia|assumption].
Qed.

(** A step that yields [v] ends the evaluation when [v] is null and
    goes on with [v] otherwise. *)
Lemma step_yields_pass (path : string) (current : pyval) (pos : nat)
    (v : pyval) :
  step_yields path current pos v ->
  exists pos' : nat,
    loop_body path current pos =
      if is_None v then Return PNone else Next (v, pos').
Proof.
  intros [(e & Hc & Hf & Hl)|(c & key & Hc & Hd & Hb & Hk & Hl)];
    rewrite (loop_body_at _ _ _ _ Hc).
  - simpl. rewrite Hf, Hl. eauto.
  - rewrite Hd, Hb, Hk, Hl. eauto.
Qed.

Lemma dict_get_Some (m : gmap string pyval) (key : string) (x : pyval) :
  m !! key = Some x -> dict_get m key = x.
Proof. intros H. unfold dict_get. rewrite H. reflexivity. Qed.

(** *** The examples of the specification *)

Example identity_on_empty_path (v : pyval) :
  extract_data_at_path v (Some "") = Ok v
  /\ extract_data_at_path v (Some "  ") = Ok v
  /\ extract_data_at_path v None = Ok v.
Proof. repeat split. Qed.

Example negative_indexing (a b c : pyval) :
  extract_data_at_path (PList [a; b; PInt 3]) (Some "[-1]") = Ok (PInt 3)
  /\ extract_data_at_path (PList [PInt 1; b; c]) (Some "[-3]") = Ok (PInt 1)
  /\ extract_data_at_path (PList [a; b; c]) (Some "[-4]") = Ok PNone.
Proof. repeat split. Qed.

Example mixed_path :
  extract_data_at_path
    (PDict {[ "weather.forecast_home" :=
                PDict {[ "forecast" :=
                           PList [PDict {[ "temperature" := PInt 21 ]}] ]} ]})
    (Some (quoted "weather.forecast_home" +:+ ".forecast[0].temperature"))
  = Ok (PInt 21).
Proof. reflexivity. Qed.

Example unmatched_bracket :
  extract_data_at_path (PDict {[ "items" := PList [PInt 1] ]})
    (Some "items[0") = Ok PNone
  /\ extract_data_at_path (PDict {[ "items" := PList [PInt 1] ]})
       (Some "items[0]") = Ok (PInt 1).
Proof. split; reflexivity. Qed.

(** C5 (quoted key, never an index): in a mapping [m] that binds the text
    key 0 to [x], the path of the quoted key 0 in brackets evaluates to
    [x], and the path of the unquoted 0 in brackets evaluates to
    not-found, an unquoted bracket being an index into a sequence; on a
    sequence the quoted key is not used as an index either. *)
Theorem quoted_key_never_index (m : gmap string pyval) (x : pyval) :
  m !! "0" = Some x ->
  extract_data_at_path (PDict m) (Some (quoted "0")) = Ok x
  /\ extract_data_at_path (PDict m) (Some "[0]") = Ok PNone
  /\ forall l : list pyval,
       extract_data_at_path (PList l) (Some (quoted "0")) = Ok PNone.
Proof.
  intros Hx. split; [|split].
  - change (extract_data_at_path (PDict m) (Some (quoted "0")))
      with (while_loop 5 (quoted "0") (PDict m) 0).
    assert (Hbody : loop_body (quoted "0") (PDict m) 0
                    = if is_None x then Return PNone else Next (x, 5%nat)).
    { rewrite <- (dict_get_Some m "0" x Hx). reflexivity. }
    rewrite while_loop_pass by (vm_compute; lia). rewrite Hbody.
    destruct x; reflexivity.
  - reflexivity.
  - intros l. reflexivity.
Qed.

Lemma quoted_key_never_index_witness :
  ({[ "0" := PStr "zero" ]} : gmap string pyval) !! "0" = Some (PStr "zero")
  /\ extract_data_at_path (PDict {[ "0" := PStr "zero" ]}) (Some (quoted "0"))
     = Ok (PStr "zero")
  /\ extract_data_at_path (PDict {[ "0" := PStr "zero" ]}) (Some "[0]")
     = Ok PNone.
Proof.
  split; [reflexivity|].
  destruct (quoted_key_never_index {[ "0" := PStr "zero" ]} (PStr "zero"))
    as (H1 & H2 & _); [reflexivity|].
  split; assumption.
Defined.

(** C6 (null short-circuit): whenever a traversal step of the evaluation
    yields the null value, at any state the loop passes through and also
    at the last step, the evaluation returns not-found; for the root that
    binds a to null the path a.b returns not-found; and a key bound to
    null and a key that is absent yield the same at a step, so a null
    leaf and an unresolved path have the same result. *)
Theorem null_short_circuit :
  (forall (data : pyval) (path : string) (current : pyval) (pos : nat),
      String.length (strip path) <> 0%nat ->
      reaches (strip path) (data, 0%nat) (current, pos) ->
      step_yields (strip path) current pos PNone ->
      extract_data_at_path data (Some path) = Ok PNone)
  /\ extract_data_at_path (PDict {[ "a" := PNone ]}) (Some "a.b") = Ok PNone
  /\ (forall (d : gmap string pyval) (key : string),
        d !! key = Some PNone \/ d !! key = None ->
        token_lookup (PDict d) key = Next PNone
        /\ forall content : string,
             is_quoted content = true -> slice content 1 (-1) = key ->
             bracket_lookup (PDict d) content = Next PNone).
Proof.
  split; [|split].
  - intros data path current pos Hlen Hr Hy.
    unfold extract_data_at_path.
    destruct (Nat.eqb_spec (String.length (strip path)) 0) as [|_]; [contradiction|].
    set (P := strip path) in *.
    assert (Hpos : (pos < String.length P)%nat).
    { destruct Hy as [(e & Hc & _)|(c & key & Hc & _)];
        exact (get_Some_lt _ _ _ Hc). }
    pose proof (while_loop_reaches P (data, 0%nat) (current, pos) Hr
                  (String.length P) (String.length P)) as E.
    simpl in E. rewrite E by lia. clear E.
    destruct (String.length P) as [|fuel] eqn:HP; [lia|].
    rewrite while_loop_pass by lia.
    destruct (step_yields_pass P current pos PNone Hy) as [pos' ->].
    reflexivity.
  - reflexivity.
  - intros d key Hk.
    assert (Hg : dict_get d key = PNone).
    { unfold dict_get. destruct Hk as [-> | ->]; reflexivity. }
    split.
    + simpl. rewrite Hg. reflexivity.
    + intros content Hq <-. unfold bracket_lookup. rewrite Hq, Hg. reflexivity.
Qed.

Lemma null_short_circuit_witness :
  String.length (strip "a.b") <> 0%nat
  /\ reaches (strip "a.b") (PDict {[ "a" := PNone ]}, 0%nat)
       (PDict {[ "a" := PNone ]}, 0%nat)
  /\ step_yields (strip "a.b") (PDict {[ "a" := PNone ]}) 0 PNone
  /\ extract_data_at_path (PDict {[ "a" := PNone ]}) (Some "a.b") = Ok PNone.
Proof.
  assert (H1 : String.length (strip "a.b") <> 0%nat) by (vm_compute; lia).
  assert (H2 : reaches (strip "a.b") (PDict {[ "a" := PNone ]}, 0%nat)
                 (PDict {[ "a" := PNone ]}, 0%nat)) by apply reaches_here.
  assert (H3 : step_yields (strip "a.b") (PDict {[ "a" := PNone ]}) 0 PNone).
  { right. exists "a"%char, "a". repeat split; reflexivity. }
  split; [exact H1|]. split; [exact H2|]. split; [exact H3|].
  exact (proj1 null_short_circuit _ _ _ _ H1 H2 H3).
Defined.

End PathEvaluator.

(* ===================================================================== *)
(** ** Properties of the value classifier                                 *)
(* ===================================================================== *)

Section ValueClassifier.
Import Py Utils Helpers.

Example classify_timestamp :
  detect_value_type_and_suggestions (PStr "2024-01-15T10:30:00+00:00")
  = Suggestions VALUE_TYPE_TIMESTAMP "" "timestamp"
  /\ detect_value_type_and_suggestions (PStr "2024-01-15")
     = Suggestions VALUE_TYPE_STRING "" "".
Proof. split; reflexivity. Qed.

(** C8 (boolean before number): a boolean is classified Boolean with no
    unit and no device class, and never Number, although it is an
    instance of [int]: the test for [bool] comes first. *)
Theorem boolean_before_number (b : bool) :
  isinstance_int (PBool b) = true
  /\ detect_value_type_and_suggestions (PBool b)
     = {| value_type := VALUE_TYPE_BOOLEAN;
          unit_of_measurement := "";
          device_class := "" |}
  /\ value_type (detect_value_type_and_suggestions (PBool b))
     <> VALUE_TYPE_NUMBER.
Proof. repeat split. discriminate. Qed.

(** C9 (totality): on every value and every path, absent, blank or
    malformed ones included, [extract_data_at_path] returns (a value, or
    [PNone] for not-found) and raises nothing; and every value has a
    classification, which is Text without hints for null, for a text that
    is no timestamp, and for sequences and mappings. *)
Theorem evaluator_and_classifier_total :
  (forall (data : pyval) (path : option string),
      exists v : pyval, extract_data_at_path data path = Ok v)
  /\ (forall value : pyval,
        detect_value_type_and_suggestions value =
          match value with
          | PBool _ => Suggestions VALUE_TYPE_BOOLEAN "" ""
          | PInt _ | PFloat _ => Suggestions VALUE_TYPE_NUMBER "" ""
          | PStr s =>
              if re_match iso_pattern s
              then Suggestions VALUE_TYPE_TIMESTAMP "" "timestamp"
              else Suggestions VALUE_TYPE_STRING "" ""
          | PNone | PList _ | PDict _ => Suggestions VALUE_TYPE_STRING "" ""
          end).
Proof.
  split.
  - intros data [path|]; simpl; [|eauto].
    destruct (String.length (strip path) =? 0)%nat; [eauto|].
    apply while_loop_returns. lia.
  - intros [ | b | n | bits | s | items | entries]; reflexivity.
Qed.

End ValueClassifier.

(* ===================================================================== *)
(** ** Properties of the call-description normaliser                      *)
(* ===================================================================== *)

Section Normalizer.
Import Py YamlValidator Spec RoundTrip.

Variable safe_load : string -> load_result.
Variable dump : pyval -> string.

Local Abbreviation parse := (parse_service_yaml safe_load).
Local Abbreviation validate := (validate_service_yaml safe_load).

Lemma pop_if_present_spec (d : gmap string pyval) (key : string) :
  pop_if_present d key = (dict_get d key, delete key d).
Proof.
  unfold pop_if_present, dict_get. destruct (d !! key) eqn:H; simpl; [reflexivity|].
  rewrite delete_id by assumption. reflexivity.
Qed.

(** What [parse_service_yaml] returns for a text that loads as a mapping. *)
Lemma parse_mapping (yaml_string : string) (top : gmap string pyval) :
  blank yaml_string = false ->
  safe_load yaml_string = Loaded (PDict top) ->
  parse yaml_string =
    if full_document top then
      match dict_get_default top "data" (PDict ∅) with
      | PDict d =>
          ParsedYaml (Some (delete "entry_id" d))
            (py_or (dict_get top "action") (dict_get top "service"))
            (dict_get d "entry_id") None
      | _ =>
          ParsedYaml None
            (py_or (dict_get top "action") (dict_get top "service"))
            PNone (Some "yaml_not_dict")
      end
    else
      ParsedYaml (Some (delete "entry_id" top)) PNone
        (dict_get top "entry_id") None.
Proof.
  intros Hb Hl. unfold parse_service_yaml, full_document. rewrite Hb, Hl.
  destruct (dict_contains top "action" || dict_contains top "service").
  - destruct (dict_get_default top "data" (PDict ∅)); try reflexivity.
    rewrite pop_if_present_spec. reflexivity.
  - rewrite pop_if_present_spec. reflexivity.
Qed.

(** C3 (parse error taxonomy): an empty or blank text, and a text that
    loads as null, give the empty description without an error; a text
    whose loading fails gives the error key yaml_parse_error; a text that
    loads as a value other than null and a mapping gives the error key
    yaml_not_dict. *)
Theorem parse_error_taxonomy (yaml_string : string) :
  (blank yaml_string = true ->
   parse yaml_string = ParsedYaml (Some ∅) PNone PNone None)
  /\ (blank yaml_string = false -> safe_load yaml_string = Loaded PNone ->
      parse yaml_string = ParsedYaml (Some ∅) PNone PNone None)
  /\ (blank yaml_string = false -> safe_load yaml_string = YAMLError ->
      parse yaml_string = ParsedYaml None PNone PNone (Some "yaml_parse_error"))
  /\ (forall v : pyval,
        blank yaml_string = false -> safe_load yaml_string = Loaded v ->
        is_None v = false -> isinstance_dict v = false ->
        parse yaml_string = ParsedYaml None PNone PNone (Some "yaml_not_dict")).
Proof.
  unfold parse_service_yaml. repeat split.
  - intros ->. reflexivity.
  - intros -> ->. reflexivity.
  - intros -> ->. reflexivity.
  - intros v -> -> Hn Hd. destruct v; simpl in *; congruence.
Qed.

(** C4 as amended (reserved key): the argument data of a successful parse
    never has the key entry_id; in the full-document form and in the
    bare-data form alike the candidate data is returned without that key,
    and the value the key had is returned as it was loaded (not turned
    into text), null when the key was absent. *)
Theorem reserved_key_removed (yaml_string : string) :
  (error_key (parse yaml_string) = None ->
   exists cleaned : gmap string pyval,
     cleaned_data (parse yaml_string) = Some cleaned
     /\ cleaned !! "entry_id" = None)
  /\ (forall top candidate : gmap string pyval,
        blank yaml_string = false ->
        safe_load yaml_string = Loaded (PDict top) ->
        (full_document top = true
         /\ dict_get_default top "data" (PDict ∅) = PDict candidate)
        \/ (full_document top = false /\ candidate = top) ->
        error_key (parse yaml_string) = None
        /\ cleaned_data (parse yaml_string) = Some (delete "entry_id" candidate)
        /\ (forall v : pyval,
              candidate !! "entry_id" = Some v ->
              entry_id (parse yaml_string) = v)
        /\ (candidate !! "entry_id" = None ->
            entry_id (parse yaml_string) = PNone)).
Proof.
  split.
  - unfold parse_service_yaml.
    destruct (blank yaml_string).
    { intros _. exists ∅. split; reflexivity. }
    destruct (safe_load yaml_string) as [v|]; [|discriminate].
    destruct v as [ | | | | | |top]; try discriminate.
    { intros _. exists ∅. split; reflexivity. }
    destruct (dict_contains top "action" || dict_contains top "service").
    + destruct (dict_get_default top "data" (PDict ∅)) as [ | | | | | |d];
        try discriminate.
      rewrite pop_if_present_spec. intros _. eexists. split; [reflexivity|].
      apply lookup_delete_eq.
    + rewrite pop_if_present_spec. intros _. eexists. split; [reflexivity|].
      apply lookup_delete_eq.
  - intros top candidate Hb Hl Hform.
    rewrite (parse_mapping _ _ Hb Hl).
    assert (Hget : forall v, candidate !! "entry_id" = Some v ->
                             dict_get candidate "entry_id" = v).
    { intros v Hv. unfold dict_get. rewrite Hv. reflexivity. }
    assert (Hnone : candidate !! "entry_id" = None ->
                    dict_get candidate "entry_id" = PNone).
    { intros Hv. unfold dict_get. rewrite Hv. reflexivity. }
    destruct Hform as [[-> ->]|[-> ->]]; simpl; auto.
Qed.

(** C7 as amended (action preferred): a top-level mapping with both keys
    action and service is read in the full-document form (the argument
    data come from the key data), and the action returned is the value of
    action when that value is true in the sense of Python, and the value
    of service when it is not (null, empty text, zero, ...). *)
Theorem action_preferred_when_truthy (yaml_string : string)
    (top : gmap string pyval) (a sv : pyval) :
  blank yaml_string = false ->
  safe_load yaml_string = Loaded (PDict top) ->
  top !! "action" = Some a ->
  top !! "service" = Some sv ->
  action (parse yaml_string) = (if truthy a then a else sv)
  /\ match top !! "data" with
     | None =>
         cleaned_data (parse yaml_string) = Some ∅
         /\ error_key (parse yaml_string) = None
     | Some (PDict d) =>
         cleaned_data (parse yaml_string) = Some (delete "entry_id" d)
         /\ error_key (parse yaml_string) = None
     | Some _ =>
         cleaned_data (parse yaml_string) = None
         /\ error_key (parse yaml_string) = Some "yaml_not_dict"
     end.
Proof.
  intros Hb Hl Ha Hs. rewrite (parse_mapping _ _ Hb Hl).
  assert (Hf : full_document top = true).
  { unfold full_document, dict_contains. rewrite Ha. reflexivity. }
  rewrite Hf. unfold dict_get_default, dict_get, py_or. rewrite Ha, Hs.
  destruct (top !! "data") as [[ | | | | | |d]|]; simpl; auto.
Qed.

(** C10 as amended (validator and parser): when the parser reports no
    error the validator accepts; when the validator reports an error the
    parser reports the same key, yaml_parse_error for a failed load and
    yaml_not_dict for a loaded value that is neither null nor a mapping;
    when the validator accepts, the parser reports no error or else
    yaml_not_dict, the latter exactly for a full-document mapping whose
    key data holds something other than a mapping. *)
Theorem validator_parser_agreement (yaml_string : string) :
  (error_key (parse yaml_string) = None ->
   validate yaml_string = (true, None))
  /\ (forall (ok : bool) (k : string),
        validate yaml_string = (ok, Some k) ->
        ok = false
        /\ error_key (parse yaml_string) = Some k
        /\ (k = "yaml_parse_error" /\ safe_load yaml_string = YAMLError
            \/ k = "yaml_not_dict"
               /\ exists v : pyval,
                    safe_load yaml_string = Loaded v
                    /\ is_None v = false /\ isinstance_dict v = false))
  /\ (validate yaml_string = (true, None) ->
      error_key (parse yaml_string) = None
      \/ (error_key (parse yaml_string) = Some "yaml_not_dict"
          /\ exists (top : gmap string pyval) (v : pyval),
               safe_load yaml_string = Loaded (PDict top)
               /\ full_document top = true
               /\ top !! "data" = Some v
               /\ isinstance_dict v = false)).
Proof.
  unfold validate_service_yaml.
  destruct (blank yaml_string) eqn:Hb.
  { unfold parse_service_yaml. rewrite Hb. simpl.
    split; [reflexivity|]. split; [discriminate|]. left. reflexivity. }
  destruct (safe_load yaml_string) as [v|] eqn:Hl.
  2:{ unfold parse_service_yaml. rewrite Hb, Hl. simpl.
      split; [discriminate|]. split; [|discriminate].
      intros ok k [= <- <-]. auto. }
  destruct v as [ | b | n | bits | s | items | top];
    try (unfold parse_service_yaml; rewrite Hb, Hl; simpl;
         split; [discriminate|]; split; [|discriminate];
         intros ok k [= <- <-]; split; [reflexivity|]; split; [reflexivity|];
         right; split; [reflexivity|]; eexists; repeat split; reflexivity).
  - unfold parse_service_yaml. rewrite Hb, Hl. simpl.
    split; [reflexivity|]. split; [discriminate|]. left. reflexivity.
  - rewrite (parse_mapping _ _ Hb Hl). simpl.
    split; [reflexivity|]. split; [discriminate|]. intros _.
    destruct (full_document top) eqn:Hf; [|left; reflexivity].
    unfold dict_get_default.
    destruct (top !! "data") as [v|] eqn:Hd; [|left; reflexivity].
    destruct v; simpl; try (left; reflexivity);
      right; (split; [reflexivity|]); eexists _, _; repeat split; eauto.
Qed.

Lemma blank_head (c : ascii) (rest : string) :
  isspace c = false -> blank (String c rest) = false.
Proof.
  intros Hc. unfold blank, strip. simpl. rewrite Hc. simpl. rewrite Hc.
  destruct (rstrip_by isspace rest); reflexivity.
Qed.

(** C1 as amended (round trip).  Let [d] be a mapping without the key
    entry_id and let PyYAML read the serialisation of [d], stripped, back
    as [d], read the empty text as [None], and nest the text
    [dict_to_yaml d] under [data:] and below [action: a] ([nests]).
    Wrapped under [data:] below the line [action: a], the serialised
    arguments of a non-empty [d] parse without error to argument data
    equal to [d].  For the empty [d] the serialisation is the empty text,
    [data:] holds [None] and the parse fails with yaml_not_dict.  Wrapped
    under [data:] alone, the document is read in the bare-data form and
    the argument data are the whole top-level mapping, data bound to [d]
    (to [None] for the empty [d]), never [d]. *)
Theorem roundtrip_under_action (d : gmap string pyval) (a : string) :
  d !! "entry_id" = None ->
  safe_load (strip (dump (PDict d))) = Loaded (PDict d) ->
  safe_load "" = Loaded PNone ->
  nests safe_load a (dict_to_yaml dump d) ->
  (d <> ∅ ->
   parse (action_wrapper a (dict_to_yaml dump d))
   = ParsedYaml (Some d) (py_or (PStr a) PNone) PNone None
   /\ parse (data_wrapper (dict_to_yaml dump d))
      = ParsedYaml (Some {[ "data" := PDict d ]}) PNone PNone None)
  /\ (d = ∅ ->
      parse (action_wrapper a (dict_to_yaml dump d))
      = ParsedYaml None (py_or (PStr a) PNone) PNone (Some "yaml_not_dict")
      /\ parse (data_wrapper (dict_to_yaml dump d))
         = ParsedYaml (Some {[ "data" := PNone ]}) PNone PNone None).
Proof.
  intros Hid Hrt Hempty Hnest.
  assert (Hba : blank (action_wrapper a (dict_to_yaml dump d)) = false)
    by exact (blank_head "a" _ eq_refl).
  assert (Hbd : blank (data_wrapper (dict_to_yaml dump d)) = false)
    by exact (blank_head "d" _ eq_refl).
  split.
  - intros Hne.
    assert (Hser : dict_to_yaml dump d = strip (dump (PDict d))).
    { unfold dict_to_yaml, truthy. rewrite bool_decide_eq_false_2 by exact Hne.
      reflexivity. }
    assert (Hl : safe_load (dict_to_yaml dump d) = Loaded (PDict d))
      by (rewrite Hser; exact Hrt).
    destruct (Hnest _ Hl) as [Hdata Haction]. split.
    + rewrite (parse_mapping _ _ Hba Haction).
      replace (full_document {[ "action" := PStr a; "data" := PDict d ]})
        with true by reflexivity.
      replace (dict_get_default {[ "action" := PStr a; "data" := PDict d ]}
                 "data" (PDict ∅)) with (PDict d) by reflexivity.
      replace (dict_get {[ "action" := PStr a; "data" := PDict d ]} "action")
        with (PStr a) by reflexivity.
      replace (dict_get {[ "action" := PStr a; "data" := PDict d ]} "service")
        with PNone by reflexivity.
      unfold dict_get. rewrite Hid, delete_id by assumption. reflexivity.
    + rewrite (parse_mapping _ _ Hbd Hdata).
      replace (full_document {[ "data" := PDict d ]}) with false
        by reflexivity.
      reflexivity.
  - intros He.
    assert (Hser : dict_to_yaml dump d = "").
    { unfold dict_to_yaml, truthy. rewrite bool_decide_eq_true_2 by exact He.
      reflexivity. }
    assert (Hl : safe_load (dict_to_yaml dump d) = Loaded PNone)
      by (rewrite Hser; exact Hempty).
    destruct (Hnest _ Hl) as [Hdata Haction]. split.
    + rewrite (parse_mapping _ _ Hba Haction). reflexivity.
    + rewrite (parse_mapping _ _ Hbd Hdata). reflexivity.
Qed.

End Normalizer.

Section NormalizerOnDocuments.
Import Py YamlValidator Spec Documents RoundTrip.

(** *** The examples of the specification *)

Example full_document_form :
  parse_service_yaml recorded_load doc_full
  = ParsedYaml (Some level_true) (PStr "dom.svc") (PStr "XYZ") None.
Proof. reflexivity. Qed.

Example bare_data_form :
  parse_service_yaml recorded_load doc_bare
  = ParsedYaml (Some level_true) PNone PNone None.
Proof. reflexivity. Qed.

Example serialize_empty (dump : pyval -> string) : dict_to_yaml dump ∅ = "".
Proof. reflexivity. Qed.

(** *** The theorems above on these documents *)

Lemma roundtrip_under_action_witness :
  (level_true !! "entry_id" = None
   /\ wrapper_load (strip (wrapper_dump (PDict level_true)))
      = Loaded (PDict level_true)
   /\ wrapper_load "" = Loaded PNone
   /\ nests wrapper_load "dom.svc" (dict_to_yaml wrapper_dump level_true)
   /\ level_true <> ∅
   /\ parse_service_yaml wrapper_load
        (action_wrapper "dom.svc" (dict_to_yaml wrapper_dump level_true))
      = ParsedYaml (Some level_true) (PStr "dom.svc") PNone None
   /\ parse_service_yaml wrapper_load
        (data_wrapper (dict_to_yaml wrapper_dump level_true))
      = ParsedYaml (Some {[ "data" := PDict level_true ]}) PNone PNone None)
  /\ ((∅ : gmap string pyval) !! "entry_id" = None
      /\ wrapper_load (strip (wrapper_dump (PDict ∅))) = Loaded (PDict ∅)
      /\ nests wrapper_load "dom.svc" (dict_to_yaml wrapper_dump ∅)
      /\ parse_service_yaml wrapper_load
           (action_wrapper "dom.svc" (dict_to_yaml wrapper_dump ∅))
         = ParsedYaml None (PStr "dom.svc") PNone (Some "yaml_not_dict")
      /\ parse_service_yaml wrapper_load
           (data_wrapper (dict_to_yaml wrapper_dump ∅))
         = ParsedYaml (Some {[ "data" := PNone ]}) PNone PNone None).
Proof.
  assert (Hrt1 : wrapper_load (strip (wrapper_dump (PDict level_true)))
                 = Loaded (PDict level_true)) by (vm_compute; reflexivity).
  assert (Hrt0 : wrapper_load (strip (wrapper_dump (PDict ∅)))
                 = Loaded (PDict ∅)) by (vm_compute; reflexivity).
  assert (Hs1 : dict_to_yaml wrapper_dump level_true = doc_bare_stripped)
    by (vm_compute; reflexivity).
  assert (Hs0 : dict_to_yaml wrapper_dump ∅ = "")
    by (vm_compute; reflexivity).
  assert (Hfull : nests wrapper_load "dom.svc"
                    (dict_to_yaml wrapper_dump level_true)).
  { rewrite Hs1. intros v Hv. injection Hv as <-. split; reflexivity. }
  assert (Hnone : nests wrapper_load "dom.svc" (dict_to_yaml wrapper_dump ∅)).
  { rewrite Hs0. intros v Hv. injection Hv as <-. split; reflexivity. }
  assert (Hne : level_true <> ∅).
  { intros E. pose proof (f_equal (fun m => m !! "level") E) as E'.
    discriminate E'. }
  split.
  - split; [reflexivity|]. split; [exact Hrt1|]. split; [reflexivity|].
    split; [exact Hfull|]. split; [exact Hne|].
    exact (proj1 (roundtrip_under_action wrapper_load wrapper_dump
                    level_true "dom.svc" eq_refl Hrt1 eq_refl Hfull) Hne).
  - split; [apply lookup_empty|]. split; [exact Hrt0|]. split; [exact Hnone|].
    exact (proj2 (roundtrip_under_action wrapper_load wrapper_dump
                    ∅ "dom.svc" (lookup_empty _) Hrt0 eq_refl Hnone) eq_refl).
Defined.

(** The round trip of the specification fails on the mapping of level to
    true: its serialisation under [data:] alone is the document
    [doc_data_only], which has neither the key action nor the key
    service, and the argument data returned are the whole top-level
    mapping. *)
Lemma roundtrip_data_wrapper_counterexample :
  level_true !! "entry_id" = None
  /\ data_wrapper (dict_to_yaml recorded_dump level_true) = doc_data_only
  /\ recorded_load doc_data_only
     = Loaded (PDict {[ "data" := PDict level_true ]})
  /\ cleaned_data
       (parse_service_yaml recorded_load
          (data_wrapper (dict_to_yaml recorded_dump level_true)))
     = Some {[ "data" := PDict level_true ]}
  /\ cleaned_data
       (parse_service_yaml recorded_load
          (data_wrapper (dict_to_yaml recorded_dump level_true)))
     <> Some level_true.
Proof.
  do 4 (split; [reflexivity|]).
  intros H.
  pose proof (f_equal (fun o : option (gmap string pyval) =>
                         match o with Some m => m !! "level" | None => None end)
                H) as E.
  vm_compute in E. discriminate E.
Qed.

Lemma parse_error_taxonomy_witness :
  (blank "   " = true
   /\ parse_service_yaml recorded_load "   "
      = ParsedYaml (Some ∅) PNone PNone None)
  /\ (recorded_load doc_comment = Loaded PNone
      /\ parse_service_yaml recorded_load doc_comment
         = ParsedYaml (Some ∅) PNone PNone None)
  /\ (recorded_load doc_unterminated = YAMLError
      /\ parse_service_yaml recorded_load doc_unterminated
         = ParsedYaml None PNone PNone (Some "yaml_parse_error"))
  /\ (recorded_load doc_sequence = Loaded (PList [PInt 1; PInt 2])
      /\ parse_service_yaml recorded_load doc_sequence
         = ParsedYaml None PNone PNone (Some "yaml_not_dict")).
Proof.
  split; [split; [reflexivity|]|split; [split; [reflexivity|]|
    split; [split; [reflexivity|]|split; [reflexivity|]]]].
  - exact (proj1 (parse_error_taxonomy recorded_load "   ") eq_refl).
  - exact (proj1 (proj2 (parse_error_taxonomy recorded_load doc_comment))
             eq_refl eq_refl).
  - exact (proj1 (proj2 (proj2
             (parse_error_taxonomy recorded_load doc_unterminated)))
             eq_refl eq_refl).
  - exact (proj2 (proj2 (proj2
             (parse_error_taxonomy recorded_load doc_sequence)))
             (PList [PInt 1; PInt 2]) eq_refl eq_refl eq_refl eq_refl).
Defined.

Lemma reserved_key_removed_witness :
  recorded_load doc_full
  = Loaded (PDict {[ "action" := PStr "dom.svc";
                     "data" := PDict {[ "entry_id" := PStr "XYZ";
                                        "level" := PBool true ]} ]})
  /\ error_key (parse_service_yaml recorded_load doc_full) = None
  /\ cleaned_data (parse_service_yaml recorded_load doc_full)
     = Some (delete "entry_id"
               {[ "entry_id" := PStr "XYZ"; "level" := PBool true ]})
  /\ entry_id (parse_service_yaml recorded_load doc_full) = PStr "XYZ".
Proof.
  split; [reflexivity|].
  destruct (proj2 (reserved_key_removed recorded_load doc_full) _
              {[ "entry_id" := PStr "XYZ"; "level" := PBool true ]}
              eq_refl eq_refl (or_introl (conj eq_refl eq_refl)))
    as (He & Hc & Hv & _).
  split; [exact He|]. split; [exact Hc|]. exact (Hv (PStr "XYZ") eq_refl).
Defined.

(** The reserved key bound to the number 123 comes back as the number
    123, not as a text. *)
Lemma reserved_key_not_coerced_counterexample :
  recorded_load doc_numeric_id
  = Loaded (PDict {[ "entry_id" := PInt 123; "level" := PBool true ]})
  /\ error_key (parse_service_yaml recorded_load doc_numeric_id) = None
  /\ entry_id (parse_service_yaml recorded_load doc_numeric_id) = PInt 123
  /\ isinstance_str (entry_id (parse_service_yaml recorded_load doc_numeric_id))
     = false.
Proof. repeat split. Qed.

Lemma action_preferred_when_truthy_witness :
  blank doc_both = false
  /\ recorded_load doc_both
     = Loaded (PDict {[ "action" := PStr "light.turn_on";
                        "service" := PStr "light.turn_off" ]})
  /\ action (parse_service_yaml recorded_load doc_both)
     = PStr "light.turn_on".
Proof.
  split; [reflexivity|]. split; [reflexivity|].
  exact (proj1 (action_preferred_when_truthy recorded_load doc_both _
                  (PStr "light.turn_on") (PStr "light.turn_off")
                  eq_refl eq_refl eq_refl eq_refl)).
Defined.

(** With an empty text under action the value of service is returned. *)
Lemma action_not_preferred_counterexample :
  recorded_load doc_empty_action
  = Loaded (PDict {[ "action" := PStr ""; "service" := PStr "dom.svc" ]})
  /\ action (parse_service_yaml recorded_load doc_empty_action)
     = PStr "dom.svc"
  /\ action (parse_service_yaml recorded_load doc_empty_action) <> PStr "".
Proof. repeat split. discriminate. Qed.

Lemma validator_parser_agreement_witness :
  (error_key (parse_service_yaml recorded_load doc_bare) = None
   /\ validate_service_yaml recorded_load doc_bare = (true, None))
  /\ (validate_service_yaml recorded_load doc_sequence
      = (false, Some "yaml_not_dict")
      /\ error_key (parse_service_yaml recorded_load doc_sequence)
         = Some "yaml_not_dict").
Proof.
  split; (split; [reflexivity|]).
  - exact (proj1 (validator_parser_agreement recorded_load doc_bare) eq_refl).
  - exact (proj1 (proj2 (proj1 (proj2
             (validator_parser_agreement recorded_load doc_sequence))
             false "yaml_not_dict" eq_refl))).
Defined.

(** A scalar under data next to an action: the validator accepts the
    document and the parser reports yaml_not_dict. *)
Lemma validator_accepts_parser_rejects_counterexample :
  recorded_load doc_scalar_data
  = Loaded (PDict {[ "action" := PStr "dom.svc"; "data" := PInt 5 ]})
  /\ validate_service_yaml recorded_load doc_scalar_data = (true, None)
  /\ error_key (parse_service_yaml recorded_load doc_scalar_data)
     = Some "yaml_not_dict".
Proof. repeat split. Qed.

End NormalizerOnDocuments.

(* ===================================================================== *)
(** ** Properties of the action identifier                                *)
(* ===================================================================== *)

Section ActionIdentifier.
Import Py ConfigFlow.

Lemma split_once_first (s : string) (c : ascii) :
  str_contains s c = true ->
  exists domain name : string,
    split_once s c = [domain; name]
    /\ s = domain +:+ String c name
    /\ str_contains domain c = false.
Proof.
  induction s as [|x s IH]; simpl; [discriminate|].
  destruct (Ascii.eqb_spec x c) as [->|Hne]; simpl.
  - intros _. exists EmptyString, s. repeat split.
  - intros H. destruct (IH H) as (domain & name & -> & -> & Hd).
    exists (String x domain), name. repeat split. simpl.
    rewrite Hd. destruct (Ascii.eqb_spec x c); [contradiction|reflexivity].
Qed.

Lemma truthy_nonempty (d : gmap string pyval) (key : string) (v : pyval) :
  d !! key = Some v -> truthy (PDict d) = true.
Proof.
  intros H. simpl. destruct (bool_decide_reflect (d = ∅)) as [->|]; [|reflexivity].
  rewrite lookup_empty in H. discriminate.
Qed.

(** C2 as amended (splitting the action identifier): for a selector whose
    action is the text [s], the result is the absent value when [s] has
    no dot (the empty text included); when [s] has a dot it is the pair
    of the text before the first dot and the text after it, whichever of
    the two is empty. *)
Theorem extract_action_splits_on_first_dot (action_data : gmap string pyval)
    (s : string) :
  action_data !! "action" = Some (PStr s) ->
  (str_contains s "." = false ->
   _extract_action_from_selector (Some action_data) = Ok None)
  /\ (str_contains s "." = true ->
      exists domain name : string,
        _extract_action_from_selector (Some action_data)
        = Ok (Some (domain, name))
        /\ s = domain +:+ String "." name
        /\ str_contains domain "." = false).
Proof.
  intros Ha. unfold _extract_action_from_selector.
  rewrite (truthy_nonempty _ _ _ Ha). unfold dict_get_default. rewrite Ha.
  simpl. split.
  - intros ->. destruct (String.length s =? 0)%nat; reflexivity.
  - intros Hc. rewrite Hc.
    destruct s as [|x s]; [discriminate|]. simpl negb. cbv iota.
    destruct (split_once_first _ _ Hc) as (domain & name & -> & Hs & Hd).
    exists domain, name. repeat split; assumption.
Qed.

Lemma extract_action_splits_on_first_dot_witness :
  ({[ "action" := PStr "a.b.c" ]} : gmap string pyval) !! "action"
  = Some (PStr "a.b.c")
  /\ str_contains "a.b.c" "." = true
  /\ exists domain name : string,
       _extract_action_from_selector (Some {[ "action" := PStr "a.b.c" ]})
       = Ok (Some (domain, name))
       /\ "a.b.c" = domain +:+ String "." name
       /\ str_contains domain "." = false.
Proof.
  split; [reflexivity|]. split; [reflexivity|].
  exact (proj2 (extract_action_splits_on_first_dot
                  {[ "action" := PStr "a.b.c" ]} "a.b.c" eq_refl) eq_refl).
Defined.

(** An empty domain or an empty name is not refused. *)
Lemma extract_action_empty_side_counterexample :
  _extract_action_from_selector (Some {[ "action" := PStr ".svc" ]})
  = Ok (Some ("", "svc"))
  /\ _extract_action_from_selector (Some {[ "action" := PStr "dom." ]})
     = Ok (Some ("dom", ""))
  /\ _extract_action_from_selector (Some {[ "action" := PStr ".svc" ]})
     <> Ok None.
Proof.
  split; [reflexivity|]. split; [reflexivity|].
  intros H. vm_compute in H. discriminate H.
Qed.

End ActionIdentifier.

(* ===================================================================== *)
(** ** Further properties of action_result/utils.py                       *)
(* ===================================================================== *)

Section ConvertToBool.
Import Py Utils Helpers Spec.

Lemma isspace_lower_char (c : ascii) : isspace (lower_char c) = isspace c.
Proof. destruct c as [[] [] [] [] [] [] [] []]; reflexivity. Qed.

Lemma lower_app (a b : string) : lower (a +:+ b) = lower a +:+ lower b.
Proof. induction a as [|c a IH]; simpl; [reflexivity|]. rewrite IH. reflexivity. Qed.

Lemma all_space_lower (s : string) : all_space (lower s) = all_space s.
Proof.
  induction s as [|c s IH]; simpl; [reflexivity|].
  rewrite isspace_lower_char, IH. reflexivity.
Qed.

Lemma lstrip_all_space (s : string) :
  all_space s = true -> lstrip_by isspace s = EmptyString.
Proof.
  induction s as [|c s IH]; simpl; [reflexivity|].
  intros [Hc Hs]%andb_true_iff. rewrite Hc. auto.
Qed.

Lemma rstrip_all_space (s : string) :
  all_space s = true -> rstrip_by isspace s = EmptyString.
Proof.
  induction s as [|c s IH]; simpl; [reflexivity|].
  intros [Hc Hs]%andb_true_iff. rewrite (IH Hs), Hc. reflexivity.
Qed.

Lemma lstrip_app_space (pre t : string) :
  all_space pre = true ->
  lstrip_by isspace (pre +:+ t) = lstrip_by isspace t.
Proof.
  induction pre as [|c pre IH]; simpl; [reflexivity|].
  intros [Hc Hs]%andb_true_iff. rewrite Hc. auto.
Qed.

Lemma rstrip_app_space (t post : string) :
  all_space post = true ->
  rstrip_by isspace (t +:+ post) = rstrip_by isspace t.
Proof.
  intros Hp. induction t as [|c t IH]; simpl.
  - apply rstrip_all_space, Hp.
  - rewrite IH. reflexivity.
Qed.

(** White space around a text does not change what [strip] leaves. *)
Lemma strip_padding (pre t post : string) :
  all_space pre = true -> all_space post = true ->
  strip (pre +:+ t +:+ post) = strip t.
Proof.
  intros Hpre Hpost. unfold strip. rewrite lstrip_app_space by assumption.
  induction t as [|c t IH]; simpl.
  - change (EmptyString +:+ post) with post.
    rewrite (lstrip_all_space _ Hpost). reflexivity.
  - destruct (isspace c); [exact IH|].
    change (String c (t +:+ post)) with (String c t +:+ post).
    apply rstrip_app_space, Hpost.
Qed.

(** The case of the letters and white space around the text do not
    matter to [convert_to_bool]: two texts with the same lower-case form
    convert alike, whatever white space surrounds the first. *)
Theorem convert_to_bool_case_and_padding (pre s1 post s2 : string) :
  all_space pre = true ->
  all_space post = true ->
  lower s1 = lower s2 ->
  convert_to_bool (PStr (pre +:+ s1 +:+ post)) = convert_to_bool (PStr s2).
Proof.
  intros Hpre Hpost Hs. unfold convert_to_bool.
  rewrite !lower_app, Hs.
  rewrite strip_padding by (rewrite all_space_lower; assumption).
  reflexivity.
Qed.

Lemma convert_to_bool_case_and_padding_witness :
  all_space "  " = true
  /\ all_space (String LF EmptyString) = true
  /\ lower "Yes" = lower "YES"
  /\ convert_to_bool (PStr ("  " +:+ "Yes" +:+ String LF EmptyString))
     = convert_to_bool (PStr "YES")
  /\ convert_to_bool (PStr "YES") = Some true.
Proof.
  split; [reflexivity|]. split; [reflexivity|]. split; [reflexivity|].
  split; [|reflexivity].
  exact (convert_to_bool_case_and_padding "  " "Yes" (String LF EmptyString)
           "YES" eq_refl eq_refl eq_refl).
Defined.

(** A value that the classifier calls Boolean is a boolean, and
    [convert_to_bool] returns it; a value it calls Number converts when
    it is an integer (to whether it is not zero) and not when it is a
    float. *)
Theorem classified_values_convert (value : pyval) :
  (value_type (detect_value_type_and_suggestions value) = VALUE_TYPE_BOOLEAN ->
   exists b : bool, value = PBool b /\ convert_to_bool value = Some b)
  /\ (value_type (detect_value_type_and_suggestions value) = VALUE_TYPE_NUMBER ->
      (exists n : Z,
          value = PInt n /\ convert_to_bool value = Some (negb (n =? 0)))
      \/ (exists bits : Z,
             value = PFloat bits /\ convert_to_bool value = None)).
Proof.
  unfold detect_value_type_and_suggestions.
  destruct value as [ | b | n | bits | s | l | d];
    try solve [simpl; split; intros H; try discriminate H; eauto 10].
  cbn [is_None isinstance_bool isinstance_int isinstance_float orb].
  destruct (re_match iso_pattern s); split; intros H; discriminate H.
Qed.

End ConvertToBool.

Section PartOfTheData.
Import Py Utils Spec.

Lemma list_getitem_elem (l : list pyval) (index : Z) (v : pyval) :
  list_getitem l index = Ok v -> v ∈ l.
Proof.
  unfold list_getitem.
  destruct (_ && _); [|discriminate].
  destruct (l !! Z.to_nat _) as [x|] eqn:Hx; [|discriminate].
  intros [= <-]. eapply list_elem_of_lookup_2, Hx.
Qed.

Lemma index_list_cases (l : list pyval) (index : Z) :
  (exists v, index_list l index = Next v /\ v ∈ l)
  \/ index_list l index = Return PNone.
Proof.
  unfold index_list. destruct (_ && _) eqn:Hg; [|right; reflexivity].
  apply andb_true_iff in Hg as [H1%Z.leb_le H2%Z.ltb_lt].
  destruct (list_getitem_in_range l index) as [v Hv]; [lia|].
  left. exists v. rewrite Hv. split; [reflexivity|].
  eapply list_getitem_elem, Hv.
Qed.

Lemma dict_lookup_sound (d : gmap string pyval) (key : string) :
  lookup_sound (PDict d) (Next (dict_get d key)).
Proof.
  simpl. intros Hn. left. exists d, key. split; [reflexivity|].
  unfold dict_get in *. destruct (d !! key); [reflexivity|discriminate].
Qed.

Lemma index_lookup_sound (l : list pyval) (index : Z) :
  lookup_sound (PList l) (index_list l index).
Proof.
  destruct (index_list_cases l index) as [(v & -> & Hv)| ->]; simpl; eauto.
Qed.

Lemma bracket_lookup_sound (current : pyval) (content : string) :
  lookup_sound current (bracket_lookup current content).
Proof.
  unfold bracket_lookup. destruct (is_quoted content).
  - destruct current; try reflexivity. apply dict_lookup_sound.
  - destruct (int_of_str content) as [index|e] eqn:Hi.
    + destruct current; try reflexivity. apply index_lookup_sound.
    + apply int_of_str_raises in Hi as ->. reflexivity.
Qed.

Lemma token_lookup_sound (current : pyval) (key : string) :
  lookup_sound current (token_lookup current key).
Proof.
  unfold token_lookup. destruct current; try reflexivity.
  - destruct (int_of_str key) as [index|e] eqn:Hi.
    + apply index_lookup_sound.
    + apply int_of_str_raises in Hi as ->. reflexivity.
  - apply dict_lookup_sound.
Qed.

(** A pass of the loop returns [None] or goes on with a part of the
    data. *)
Lemma loop_body_sound (root : pyval) (path : string) (current : pyval)
    (pos : nat) :
  (pos < String.length path)%nat ->
  lies_in root current ->
  match loop_body path current pos with
  | Next (current', _) => lies_in root current'
  | Return v => v = PNone
  | Break => True
  | Throw _ => False
  end.
Proof.
  intros Hlt Hc. destruct (get_lt path pos Hlt) as [c Hg].
  rewrite (loop_body_at _ _ _ _ Hg).
  destruct (Ascii.eqb c "."); [assumption|].
  destruct (Ascii.eqb c "[").
  - destruct (find path "]" pos) as [e|]; [|reflexivity].
    pose proof (bracket_lookup_sound current
                  (slice path (Z.of_nat pos + 1) (Z.of_nat e))) as Hs.
    destruct (bracket_lookup _ _) as [v|v| |ex]; simpl in Hs;
      try (exact Hs || contradiction).
    destruct (is_None v) eqn:Hn; [reflexivity|].
    destruct (Hs eq_refl) as [(d & k & -> & Hk)|(l & -> & Hl)];
      [eapply lies_in_value|eapply lies_in_item]; eassumption.
  - destruct (match_key _) as [key|]; [|exact I].
    pose proof (token_lookup_sound current key) as Hs.
    destruct (token_lookup _ _) as [v|v| |ex]; simpl in Hs;
      try (exact Hs || contradiction).
    destruct (is_None v) eqn:Hn; [reflexivity|].
    destruct (Hs eq_refl) as [(d & k & -> & Hk)|(l & -> & Hl)];
      [eapply lies_in_value|eapply lies_in_item]; eassumption.
Qed.

Lemma while_loop_sound (root : pyval) (path : string) (fuel : nat) :
  forall (current : pyval) (pos : nat) (v : pyval),
    lies_in root current ->
    while_loop fuel path current pos = Ok v ->
    v = PNone \/ lies_in root v.
Proof.
  induction fuel as [|fuel IH]; intros current pos v Hc; simpl;
    destruct (Nat.ltb_spec pos (String.length path)) as [Hlt|Hge];
    try discriminate; try (intros [= <-]; right; assumption).
  pose proof (loop_body_sound root path current pos Hlt Hc) as Hs.
  destruct (loop_body path current pos) as [[c' p']|r| |e].
  - apply IH, Hs.
  - intros [= <-]. left. exact Hs.
  - intros [= <-]. right. assumption.
  - discriminate.
Qed.

(** The evaluator invents nothing: what it returns is [None] or a part
    of the data it was given (the data themselves, an item of a sequence
    in them, a value of a mapping in them). *)
Theorem extract_returns_part_of_data (data : pyval) (path : option string)
    (v : pyval) :
  extract_data_at_path data path = Ok v ->
  v = PNone \/ lies_in data v.
Proof.
  destruct path as [path|]; simpl.
  - destruct (String.length (strip path) =? 0)%nat.
    + intros [= <-]. right. constructor.
    + apply while_loop_sound. constructor.
  - intros [= <-]. right. constructor.
Qed.

Lemma extract_returns_part_of_data_witness :
  extract_data_at_path
    (PDict {[ "items" := PList [PInt 1; PInt 2] ]}) (Some "items[1]")
  = Ok (PInt 2)
  /\ (PInt 2 = PNone
      \/ lies_in (PDict {[ "items" := PList [PInt 1; PInt 2] ]}) (PInt 2)).
Proof.
  split; [reflexivity|].
  exact (extract_returns_part_of_data
           (PDict {[ "items" := PList [PInt 1; PInt 2] ]})
           (Some "items[1]") (PInt 2) eq_refl).
Defined.

End PartOfTheData.

Section PathComposition.
Import Py Utils Spec.

Lemma app_cons (c : ascii) (a b : string) :
  String c a +:+ b = String c (a +:+ b).
Proof. reflexivity. Qed.

Lemma app_length (a b : string) :
  String.length (a +:+ b) = (String.length a + String.length b)%nat.
Proof. induction a as [|c a IH]; [reflexivity|]. rewrite app_cons. simpl. lia. Qed.

Lemma get_app_r (pre s : string) (p : nat) :
  String.get (String.length pre + p) (pre +:+ s) = String.get p s.
Proof. induction pre as [|c pre IH]; [reflexivity|]. rewrite app_cons. exact IH. Qed.

Lemma substring_app_r (pre s : string) (a n : nat) :
  String.substring (String.length pre + a) n (pre +:+ s)
  = String.substring a n s.
Proof. induction pre as [|c pre IH]; [reflexivity|]. rewrite app_cons. exact IH. Qed.

(** A slice of a text behind a prefix is the slice of the text. *)
Lemma slice_app_r (pre s : string) (x y : nat) :
  slice (pre +:+ s) (Z.of_nat (String.length pre + x))
    (Z.of_nat (String.length pre + y))
  = slice s (Z.of_nat x) (Z.of_nat y).
Proof.
  unfold slice, clamp. rewrite app_length.
  set (lp := String.length pre). set (ls := String.length s).
  destruct (Z.ltb_spec (Z.of_nat (lp + x)) 0) as [|_]; [lia|].
  destruct (Z.ltb_spec (Z.of_nat (lp + y)) 0) as [|_]; [lia|].
  destruct (Z.ltb_spec (Z.of_nat x) 0) as [|_]; [lia|].
  destruct (Z.ltb_spec (Z.of_nat y) 0) as [|_]; [lia|].
  replace (Z.to_nat (Z.max 0 (Z.min (Z.of_nat (lp + ls)) (Z.of_nat (lp + x)))))
    with (lp + Z.to_nat (Z.max 0 (Z.min (Z.of_nat ls) (Z.of_nat x))))%nat by lia.
  replace (Z.max 0 (Z.min (Z.of_nat (lp + ls)) (Z.of_nat (lp + y)))
           - Z.max 0 (Z.min (Z.of_nat (lp + ls)) (Z.of_nat (lp + x))))
    with (Z.max 0 (Z.min (Z.of_nat ls) (Z.of_nat y))
          - Z.max 0 (Z.min (Z.of_nat ls) (Z.of_nat x))) by lia.
  apply substring_app_r.
Qed.

Lemma slice_from_app_r (pre s : string) (p : nat) :
  slice_from (pre +:+ s) (String.length pre + p) = slice_from s p.
Proof.
  unfold slice_from. rewrite app_length. apply slice_app_r.
Qed.

Lemma substring_whole (s : string) :
  String.substring 0 (String.length s) s = s.
Proof. induction s as [|c s IH]; simpl; [reflexivity|]. rewrite IH. reflexivity. Qed.

Lemma slice_from_0 (s : string) : slice_from s 0 = s.
Proof.
  unfold slice_from, slice, clamp.
  destruct (Z.ltb_spec (Z.of_nat 0) 0) as [|_]; [lia|].
  destruct (Z.ltb_spec (Z.of_nat (String.length s)) 0) as [|_]; [lia|].
  replace (Z.to_nat (Z.max 0 (Z.min (Z.of_nat (String.length s)) (Z.of_nat 0))))
    with 0%nat by lia.
  replace (Z.to_nat
             (Z.max 0 (Z.min (Z.of_nat (String.length s))
                         (Z.of_nat (String.length s)))
              - Z.max 0 (Z.min (Z.of_nat (String.length s)) (Z.of_nat 0))))
    with (String.length s) by lia.
  apply substring_whole.
Qed.

Lemma find_in_shift (c : ascii) (t : string) (a b : nat) :
  find_in c t (a + b) = Nat.add a <$> find_in c t b.
Proof.
  revert b. induction t as [|x t IH]; intros b; simpl; [reflexivity|].
  destruct (Ascii.eqb x c); [reflexivity|].
  rewrite <- IH. f_equal. lia.
Qed.

Lemma find_app_r (pre s : string) (c : ascii) (p : nat) :
  find (pre +:+ s) c (String.length pre + p)
  = Nat.add (String.length pre) <$> find s c p.
Proof. unfold find. rewrite slice_from_app_r. apply find_in_shift. Qed.

(** A pass of the loop behind a prefix of the path is the pass on the
    rest of the path, the positions moved by the length of the prefix. *)
Lemma loop_body_app_r (pre s : string) (current : pyval) (p : nat) :
  loop_body (pre +:+ s) current (String.length pre + p) =
    match loop_body s current p with
    | Next (current', pos') => Next (current', (String.length pre + pos')%nat)
    | Return v => Return v
    | Break => Break
    | Throw e => Throw e
    end.
Proof.
  unfold loop_body, str_getitem. rewrite get_app_r.
  destruct (String.get p s) as [c|]; [|reflexivity]. simpl.
  destruct (Ascii.eqb c "."); [f_equal; f_equal; lia|].
  destruct (Ascii.eqb c "[").
  - rewrite find_app_r. destruct (find s "]" p) as [e|]; [|reflexivity]. simpl.
    replace (Z.of_nat (String.length pre + p) + 1)
      with (Z.of_nat (String.length pre + (p + 1))) by lia.
    rewrite slice_app_r.
    replace (Z.of_nat (p + 1)) with (Z.of_nat p + 1) by lia.
    destruct (bracket_lookup _ _) as [v|v| |ex]; try reflexivity. simpl.
    destruct (is_None v); [reflexivity|]. f_equal. f_equal. lia.
  - rewrite slice_from_app_r.
    destruct (match_key (slice_from s p)) as [key|]; [|reflexivity].
    destruct (token_lookup _ _) as [v|v| |ex]; try reflexivity. simpl.
    destruct (is_None v); [reflexivity|]. f_equal. f_equal. lia.
Qed.

Lemma while_loop_app_r (pre s : string) (fuel : nat) :
  forall (current : pyval) (p : nat),
    while_loop fuel (pre +:+ s) current (String.length pre + p)
    = while_loop fuel s current p.
Proof.
  induction fuel as [|fuel IH]; intros current p; simpl;
    rewrite app_length;
    destruct (Nat.ltb_spec (String.length pre + p)
                (String.length pre + String.length s));
    destruct (Nat.ltb_spec p (String.length s)); try lia; try reflexivity.
  rewrite loop_body_app_r.
  destruct (loop_body s current p) as [[c' p']|v| |e]; try reflexivity.
  apply IH.
Qed.

Lemma app_assoc_dot (key rest : string) :
  key +:+ String "." rest = (key +:+ ".") +:+ rest.
Proof.
  induction key as [|c key IH]; [reflexivity|].
  rewrite !app_cons, IH. reflexivity.
Qed.

Lemma lstrip_length (s : string) :
  (String.length (lstrip_by isspace s) <= String.length s)%nat.
Proof.
  induction s as [|c s IH]; simpl; [lia|].
  destruct (isspace c); simpl; lia.
Qed.

Lemma rstrip_length (s : string) :
  (String.length (rstrip_by isspace s) <= String.length s)%nat.
Proof.
  induction s as [|c s IH]; simpl; [lia|].
  destruct (rstrip_by isspace s); [destruct (isspace c)|]; simpl in *; lia.
Qed.

Lemma lstrip_fix (s : string) :
  String.length (lstrip_by isspace s) = String.length s ->
  lstrip_by isspace s = s.
Proof.
  destruct s as [|c s]; simpl; [reflexivity|].
  destruct (isspace c); [|reflexivity].
  pose proof (lstrip_length s). lia.
Qed.

(** A text that [strip] leaves as it is has no white space at either
    end. *)
Lemma strip_fix (s : string) :
  strip s = s -> lstrip_by isspace s = s /\ rstrip_by isspace s = s.
Proof.
  unfold strip. intros H.
  assert (Hl : lstrip_by isspace s = s).
  { apply lstrip_fix. pose proof (lstrip_length s).
    pose proof (rstrip_length (lstrip_by isspace s)). rewrite H in *. lia. }
  rewrite Hl in H. split; assumption.
Qed.

Lemma rstrip_cons_fix (c : ascii) (t : string) :
  rstrip_by isspace t = t ->
  isspace c = false \/ t <> EmptyString ->
  rstrip_by isspace (String c t) = String c t.
Proof.
  intros Ht Hc. simpl. rewrite Ht. destruct t as [|x t]; [|reflexivity].
  destruct Hc as [-> |Hne]; [reflexivity|contradiction].
Qed.

Lemma rstrip_app_fix (a t : string) :
  rstrip_by isspace t = t -> t <> EmptyString ->
  rstrip_by isspace (a +:+ t) = a +:+ t.
Proof.
  intros Ht Hne. induction a as [|c a IH]; [exact Ht|].
  rewrite app_cons. apply rstrip_cons_fix; [exact IH|]. right.
  destruct a; [exact Hne|rewrite app_cons; discriminate].
Qed.

Lemma take_key_app (key rest : string) :
  take_key key = key -> take_key (key +:+ String "." rest) = key.
Proof.
  induction key as [|c key IH]; [reflexivity|].
  rewrite app_cons. simpl. destruct (is_separator c); [discriminate|].
  intros [= H]. rewrite (IH H). reflexivity.
Qed.

Lemma lies_in_None (v : pyval) : lies_in PNone v -> v = PNone.
Proof. induction 1; [reflexivity|discriminate..]. Qed.

Lemma extract_from_None (path : option string) :
  extract_data_at_path PNone path = Ok PNone.
Proof.
  destruct path as [path|]; simpl; [|reflexivity].
  destruct (String.length (strip path) =? 0)%nat; [reflexivity|].
  destruct (while_loop_returns (strip path) (String.length (strip path))
              PNone 0) as [v Hv]; [lia|].
  rewrite Hv. f_equal.
  destruct (while_loop_sound PNone _ _ _ _ _ (lies_in_root PNone) Hv)
    as [->|H]; [reflexivity|exact (lies_in_None _ H)].
Qed.

(** Dotted paths compose: when the mapping [d] binds the bare key [key]
    to [v], evaluating the path [key.rest] on [d] is evaluating the path
    [rest] on [v], for every path [rest] without white space at its
    ends. *)
Theorem extract_dotted_key (d : gmap string pyval) (key rest : string)
    (v : pyval) :
  bare_key key = true ->
  d !! key = Some v ->
  strip rest = rest ->
  extract_data_at_path (PDict d) (Some (key +:+ "." +:+ rest))
  = extract_data_at_path v (Some rest).
Proof.
  intros Hkey Hv Hrest.
  destruct key as [|c k]; [discriminate|].
  apply andb_true_iff in Hkey as [Hc Htk].
  apply negb_true_iff in Hc. apply String.eqb_eq in Htk.
  assert (Hsep : is_separator c = false).
  { simpl in Htk. destruct (is_separator c); [discriminate|reflexivity]. }
  unfold is_separator in Hsep.
  apply orb_false_iff in Hsep as [[Hdot Hbr]%orb_false_iff _].
  destruct (strip_fix _ Hrest) as [_ Hr].
  change ("." +:+ rest) with (String "." rest).
  set (P := String c k +:+ String "." rest).
  assert (HP : strip P = P).
  { unfold strip, P. rewrite app_cons. simpl lstrip_by. rewrite Hc.
    rewrite <- app_cons. apply rstrip_app_fix; [|discriminate].
    apply rstrip_cons_fix; [exact Hr|left; reflexivity]. }
  assert (HlenP : String.length P
                  = S (S (String.length k + String.length rest))).
  { unfold P. rewrite app_length. simpl. lia. }
  unfold extract_data_at_path at 1. rewrite HP, HlenP. simpl Nat.eqb. cbv iota.
  (* first pass: the token [key] *)
  rewrite while_loop_pass by lia.
  rewrite (loop_body_at P _ _ c) by reflexivity.
  rewrite Hdot, Hbr, slice_from_0.
  unfold match_key, P. rewrite (take_key_app _ _ Htk). fold P.
  cbn [token_lookup]. rewrite (dict_get_Some _ _ _ Hv).
  destruct (is_None v) eqn:Hn.
  { destruct v; try discriminate. symmetry. apply extract_from_None. }
  (* second pass: the dot *)
  rewrite while_loop_pass by (rewrite HlenP; simpl; lia).
  replace (0 + String.length (String c k))%nat
    with (String.length (String c k) + 0)%nat by lia.
  unfold P at 1. rewrite loop_body_app_r.
  change (loop_body (String "." rest) v 0) with (@Next (pyval * nat) (v, 1%nat)).
  (* the rest of the path *)
  unfold P. rewrite app_assoc_dot.
  replace (String.length (String c k) + 1)%nat
    with (String.length (String c k +:+ ".") + 0)%nat
    by (rewrite app_length; simpl; lia).
  rewrite while_loop_app_r.
  unfold extract_data_at_path. rewrite Hrest.
  destruct (Nat.eqb_spec (String.length rest) 0) as [H0|H0].
  - apply while_loop_done. lia.
  - apply while_loop_fuel; lia.
Qed.

Lemma extract_dotted_key_witness :
  bare_key "forecast" = true
  /\ ({[ "forecast" := PList [PInt 21; PInt 19] ]} : gmap string pyval)
       !! "forecast" = Some (PList [PInt 21; PInt 19])
  /\ strip "[-1]" = "[-1]"
  /\ extract_data_at_path (PDict {[ "forecast" := PList [PInt 21; PInt 19] ]})
       (Some ("forecast" +:+ "." +:+ "[-1]"))
     = extract_data_at_path (PList [PInt 21; PInt 19]) (Some "[-1]")
  /\ extract_data_at_path (PList [PInt 21; PInt 19]) (Some "[-1]")
     = Ok (PInt 19).
Proof.
  split; [reflexivity|]. split; [reflexivity|]. split; [reflexivity|].
  split; [|reflexivity].
  exact (extract_dotted_key {[ "forecast" := PList [PInt 21; PInt 19] ]}
           "forecast" "[-1]" (PList [PInt 21; PInt 19])
           eq_refl eq_refl eq_refl).
Defined.

(** *** A bare token and a bracket on a sequence *)

Lemma take_key_first (c : ascii) (k : string) :
  take_key (String c k) = String c k ->
  is_separator c = false /\ take_key k = k.
Proof.
  simpl. destruct (is_separator c); [discriminate|].
  intros [= H]. split; [reflexivity|exact H].
Qed.

Lemma find_in_closing (i rest : string) (start : nat) :
  take_key i = i ->
  find_in "]" (i +:+ String "]" rest) start
  = Some (start + String.length i)%nat.
Proof.
  revert start. induction i as [|c i IH]; intros start Hi.
  - simpl. f_equal. lia.
  - destruct (take_key_first _ _ Hi) as [Hsep Hi'].
    rewrite app_cons. simpl.
    unfold is_separator in Hsep.
    apply orb_false_iff in Hsep as [_ Hc]. rewrite Hc.
    rewrite (IH _ Hi'). f_equal. lia.
Qed.

Lemma substring_prefix (a b : string) :
  String.substring 0 (String.length a) (a +:+ b) = a.
Proof.
  induction a as [|c a IH]; [destruct b; reflexivity|].
  rewrite app_cons. simpl. rewrite IH. reflexivity.
Qed.

Lemma slice_prefix (a b : string) :
  slice (a +:+ b) (Z.of_nat 0) (Z.of_nat (String.length a)) = a.
Proof.
  unfold slice, clamp. rewrite app_length.
  destruct (Z.ltb_spec (Z.of_nat 0) 0) as [|_]; [lia|].
  destruct (Z.ltb_spec (Z.of_nat (String.length a)) 0) as [|_]; [lia|].
  replace (Z.to_nat (Z.max 0 (Z.min (Z.of_nat (String.length a + String.length b))
                                (Z.of_nat 0)))) with 0%nat by lia.
  replace (Z.to_nat
             (Z.max 0 (Z.min (Z.of_nat (String.length a + String.length b))
                         (Z.of_nat (String.length a)))
              - Z.max 0 (Z.min (Z.of_nat (String.length a + String.length b))
                           (Z.of_nat 0))))
    with (String.length a) by lia.
  apply substring_prefix.
Qed.

(** A quoted text is no integer. *)
Lemma int_of_str_quoted (i : string) :
  is_quoted i = true -> int_of_str i = Raise ValueError.
Proof.
  destruct i as [|q i]; [discriminate|].
  unfold is_quoted. simpl startswith. intros Hq.
  assert (Hq' : Ascii.eqb q DQUOTE = true \/ Ascii.eqb q "'" = true).
  { apply orb_true_iff in Hq as [[H _]%andb_true_iff|[H _]%andb_true_iff];
      auto. }
  assert (Hfacts : int_space q = false /\ Ascii.eqb q "-" = false
                   /\ Ascii.eqb q "+" = false /\ isdigit q = false
                   /\ Ascii.eqb q "_" = false).
  { destruct Hq' as [->%Ascii.eqb_eq| ->%Ascii.eqb_eq]; repeat split. }
  destruct Hfacts as (Hs & Hm & Hp & Hd & Hu).
  unfold int_of_str. simpl lstrip_by. rewrite Hs.
  assert (Hr : exists rest : string,
             rstrip_by int_space (String q i) = String q rest).
  { simpl. destruct (rstrip_by int_space i); [rewrite Hs|]; eauto. }
  destruct Hr as [rest ->]. rewrite Hm, Hp. simpl. rewrite Hd, Hu. reflexivity.
Qed.

Lemma list_lookups_agree (l : list pyval) (i : string) :
  bracket_lookup (PList l) i = token_lookup (PList l) i.
Proof.
  unfold bracket_lookup, token_lookup.
  destruct (is_quoted i) eqn:Hq; [|reflexivity].
  rewrite (int_of_str_quoted _ Hq). reflexivity.
Qed.

(** On a sequence a bare token and the same text in brackets address the
    same item: the path [i] and the path of [i] between square brackets
    evaluate alike, for every bare key [i] that [strip] leaves unchanged,
    that is, with no white space at its end either (an index such as 0
    or -1, or any other such text, for which both give not-found).  The
    bare path is stripped as a whole and the text between the brackets
    is not, so a key ending in white space is outside the statement. *)
Theorem index_token_and_bracket_agree (l : list pyval) (i : string) :
  bare_key i = true ->
  strip i = i ->
  extract_data_at_path (PList l) (Some i)
  = extract_data_at_path (PList l) (Some ("[" +:+ i +:+ "]")).
Proof.
  intros Hkey Hi.
  destruct i as [|c k] eqn:Ei; [discriminate|]. rewrite <- Ei in *.
  assert (Hkey' := Hkey). rewrite Ei in Hkey'.
  apply andb_true_iff in Hkey' as [_ Htk]. apply String.eqb_eq in Htk.
  rewrite <- Ei in Htk.
  assert (Hsep : is_separator c = false).
  { rewrite Ei in Htk. exact (proj1 (take_key_first _ _ Htk)). }
  unfold is_separator in Hsep.
  apply orb_false_iff in Hsep as [[Hdot Hbr]%orb_false_iff _].
  assert (Hlen : String.length i = S (String.length k))
    by (rewrite Ei; reflexivity).
  destruct (strip_fix _ Hi) as [_ Hr].
  (* the bare token *)
  unfold extract_data_at_path at 1. rewrite Hi, Hlen. simpl Nat.eqb. cbv iota.
  rewrite while_loop_pass by lia.
  rewrite (loop_body_at i _ _ c) by (rewrite Ei; reflexivity).
  rewrite Hdot, Hbr, slice_from_0.
  assert (Hm : match_key i = Some i).
  { unfold match_key. rewrite Htk, Ei. reflexivity. }
  rewrite Hm.
  (* the bracket *)
  set (P := "[" +:+ i +:+ "]").
  assert (HP : strip P = P).
  { unfold strip, P. change ("[" +:+ i +:+ "]") with (String "[" (i +:+ "]")).
    simpl lstrip_by. cbv iota. apply rstrip_cons_fix; [|left; reflexivity].
    apply rstrip_app_fix; [reflexivity|discriminate]. }
  assert (HlenP : String.length P = S (S (S (String.length k)))).
  { unfold P. change ("[" +:+ i +:+ "]") with (String "[" (i +:+ "]")).
    simpl. rewrite app_length, Hlen. simpl. lia. }
  unfold extract_data_at_path. rewrite HP, HlenP. simpl Nat.eqb. cbv iota.
  rewrite (while_loop_pass _ P) by lia.
  rewrite (loop_body_at P _ _ "["%char) by reflexivity.
  simpl Ascii.eqb. cbv iota.
  assert (Hfind : find P "]" 0 = Some (S (String.length i))).
  { unfold find. rewrite slice_from_0. unfold P.
    change ("[" +:+ i +:+ "]") with (String "[" (i +:+ String "]" "")).
    simpl find_in. rewrite (find_in_closing _ _ _ Htk). reflexivity. }
  rewrite Hfind.
  assert (Hslice : slice P (Z.of_nat 0 + 1) (Z.of_nat (S (String.length i))) = i).
  { unfold P. change ("[" +:+ i +:+ "]") with ("[" +:+ (i +:+ "]")).
    change (Z.of_nat 0 + 1) with (Z.of_nat (String.length "[" + 0)).
    change (S (String.length i)) with (String.length "[" + String.length i)%nat.
    rewrite slice_app_r. apply slice_prefix. }
  rewrite Hslice, list_lookups_agree.
  destruct (token_lookup (PList l) i) as [v|v| |e]; try reflexivity.
  destruct (is_None v); [reflexivity|].
  rewrite !while_loop_done by (rewrite ?Hlen, ?HlenP, ?Hlen; simpl; lia).
  reflexivity.
Qed.

Lemma index_token_and_bracket_agree_witness :
  bare_key "-1" = true
  /\ strip "-1" = "-1"
  /\ extract_data_at_path (PList [PInt 21; PInt 19]) (Some "-1")
     = extract_data_at_path (PList [PInt 21; PInt 19])
         (Some ("[" +:+ "-1" +:+ "]"))
  /\ extract_data_at_path (PList [PInt 21; PInt 19]) (Some "-1")
     = Ok (PInt 19).
Proof.
  split; [reflexivity|]. split; [reflexivity|]. split; [|reflexivity].
  exact (index_token_and_bracket_agree [PInt 21; PInt 19] "-1"
           eq_refl eq_refl).
Defined.

(** *** A bare token and a quoted key on a mapping *)

Lemma endswith_app (a : string) (q : ascii) :
  endswith (a +:+ String q EmptyString) q = true.
Proof.
  induction a as [|x a IH]; [simpl; apply Ascii.eqb_refl|].
  rewrite app_cons. destruct a as [|y a]; exact IH.
Qed.

Lemma take_key_app_plain (k : string) (q : ascii) :
  take_key k = k -> is_separator q = false ->
  take_key (k +:+ String q EmptyString) = k +:+ String q EmptyString.
Proof.
  intros Hk Hq. induction k as [|c k IH].
  - simpl. rewrite Hq. reflexivity.
  - destruct (take_key_first _ _ Hk) as [Hc Hk']. rewrite app_cons. simpl.
    rewrite Hc, (IH Hk'). reflexivity.
Qed.

Lemma app_assoc_closing (k : string) (q : ascii) :
  (k +:+ String q EmptyString) +:+ "]" = k +:+ String q "]".
Proof.
  induction k as [|c k IH]; [reflexivity|]. rewrite !app_cons, IH. reflexivity.
Qed.

Lemma slice_inner (q : ascii) (k : string) :
  slice (String q (k +:+ String q EmptyString)) 1 (-1) = k.
Proof.
  unfold slice, clamp. simpl String.length. rewrite app_length. simpl String.length.
  destruct (Z.ltb_spec 1 0) as [|_]; [lia|].
  destruct (Z.ltb_spec (-1) 0) as [_|]; [|lia].
  replace (Z.to_nat (Z.max 0 (Z.min (Z.of_nat (S (String.length k + 1))) 1)))
    with 1%nat by lia.
  replace (Z.to_nat
             (Z.max 0 (Z.min (Z.of_nat (S (String.length k + 1)))
                         (-1 + Z.of_nat (S (String.length k + 1))))
              - Z.max 0 (Z.min (Z.of_nat (S (String.length k + 1))) 1)))
    with (String.length k) by lia.
  simpl String.substring. apply substring_prefix.
Qed.

(** On a mapping a bare key and the same key quoted in brackets address
    the same value: the path [key] and the path of [key] in double
    quotes between square brackets evaluate alike, for every bare key
    [key] that [strip] leaves unchanged, that is, with no white space at
    its end either.  The bare path is stripped as a whole and the quoted
    key is not, so a key ending in white space is outside the
    statement. *)
Theorem bare_key_and_quoted_key_agree (d : gmap string pyval) (key : string) :
  bare_key key = true ->
  strip key = key ->
  extract_data_at_path (PDict d) (Some key)
  = extract_data_at_path (PDict d) (Some (quoted key)).
Proof.
  intros Hkey Hi.
  destruct key as [|c k] eqn:Ei; [discriminate|]. rewrite <- Ei in *.
  assert (Hkey' := Hkey). rewrite Ei in Hkey'.
  apply andb_true_iff in Hkey' as [_ Htk]. apply String.eqb_eq in Htk.
  rewrite <- Ei in Htk.
  assert (Hsep : is_separator c = false).
  { rewrite Ei in Htk. exact (proj1 (take_key_first _ _ Htk)). }
  unfold is_separator in Hsep.
  apply orb_false_iff in Hsep as [[Hdot Hbr]%orb_false_iff _].
  assert (Hlen : String.length key = S (String.length k))
    by (rewrite Ei; reflexivity).
  (* the bare key *)
  unfold extract_data_at_path at 1. rewrite Hi, Hlen. simpl Nat.eqb. cbv iota.
  rewrite while_loop_pass by lia.
  rewrite (loop_body_at key _ _ c) by (rewrite Ei; reflexivity).
  rewrite Hdot, Hbr, slice_from_0.
  assert (Hm : match_key key = Some key).
  { unfold match_key. rewrite Htk, Ei. reflexivity. }
  rewrite Hm. cbn [token_lookup].
  (* the quoted key *)
  set (content := String DQUOTE (key +:+ String DQUOTE EmptyString)).
  assert (HP : quoted key = "[" +:+ content +:+ "]").
  { unfold quoted, content.
    change ("[" +:+ String DQUOTE (key +:+ String DQUOTE "") +:+ "]")
      with (String "[" (String DQUOTE ((key +:+ String DQUOTE "") +:+ "]"))).
    rewrite app_assoc_closing. reflexivity. }
  assert (Hcontent : take_key content = content).
  { unfold content. simpl. f_equal.
    apply take_key_app_plain; [exact Htk|reflexivity]. }
  assert (Hclen : String.length content = S (S (S (String.length k)))).
  { unfold content. simpl. rewrite app_length, Hlen. simpl. lia. }
  assert (Hb : bracket_lookup (PDict d) content = Next (dict_get d key)).
  { unfold bracket_lookup.
    assert (Hq : is_quoted content = true).
    { unfold is_quoted, content. simpl startswith.
      change (String DQUOTE (key +:+ String DQUOTE ""))
        with (String DQUOTE key +:+ String DQUOTE "").
      rewrite endswith_app. reflexivity. }
    rewrite Hq. unfold content. rewrite slice_inner. reflexivity. }
  clearbody content.
  set (P := "[" +:+ content +:+ "]") in *.
  assert (HPs : strip P = P).
  { unfold strip, P. change ("[" +:+ content +:+ "]")
      with (String "[" (content +:+ "]")).
    simpl lstrip_by. cbv iota. apply rstrip_cons_fix; [|left; reflexivity].
    apply rstrip_app_fix; [reflexivity|discriminate]. }
  assert (HlenP : String.length P = S (S (String.length content))).
  { unfold P. change ("[" +:+ content +:+ "]")
      with (String "[" (content +:+ "]")).
    simpl. rewrite app_length. simpl. lia. }
  unfold extract_data_at_path. rewrite HP, HPs, HlenP. simpl Nat.eqb. cbv iota.
  rewrite (while_loop_pass _ P) by lia.
  rewrite (loop_body_at P _ _ "["%char) by reflexivity.
  simpl Ascii.eqb. cbv iota.
  assert (Hfind : find P "]" 0 = Some (S (String.length content))).
  { unfold find. rewrite slice_from_0. unfold P.
    change ("[" +:+ content +:+ "]")
      with (String "[" (content +:+ String "]" "")).
    simpl find_in. rewrite (find_in_closing _ _ _ Hcontent). reflexivity. }
  rewrite Hfind.
  assert (Hslice : slice P (Z.of_nat 0 + 1)
                     (Z.of_nat (S (String.length content))) = content).
  { unfold P. change ("[" +:+ content +:+ "]")
      with ("[" +:+ (content +:+ "]")).
    change (Z.of_nat 0 + 1) with (Z.of_nat (String.length "[" + 0)).
    change (S (String.length content))
      with (String.length "[" + String.length content)%nat.
    rewrite slice_app_r. apply slice_prefix. }
  rewrite Hslice, Hb.
  destruct (is_None (dict_get d key)); [reflexivity|].
  rewrite !while_loop_done by (rewrite ?Hlen, ?HlenP, ?Hclen; simpl; lia).
  reflexivity.
Qed.

Lemma bare_key_and_quoted_key_agree_witness :
  bare_key "level" = true
  /\ strip "level" = "level"
  /\ extract_data_at_path (PDict {[ "level" := PBool true ]}) (Some "level")
     = extract_data_at_path (PDict {[ "level" := PBool true ]})
         (Some (quoted "level"))
  /\ extract_data_at_path (PDict {[ "level" := PBool true ]}) (Some "level")
     = Ok (PBool true).
Proof.
  split; [reflexivity|]. split; [reflexivity|]. split; [|reflexivity].
  exact (bare_key_and_quoted_key_agree {[ "level" := PBool true ]} "level"
           eq_refl eq_refl).
Defined.

End PathComposition.

(* ===================================================================== *)
(** ** Further properties of yaml_validator.py                            *)
(* ===================================================================== *)

Section MoreOnTheNormalizer.
Import Py YamlValidator Spec.

Variable safe_load : string -> load_result.
Variable dump : pyval -> string.

Local Abbreviation parse := (parse_service_yaml safe_load).


(** Arguments named action or service do not survive the stored form:
    when the argument data [d] have the key action or the key service
    and no key data, and their serialisation is not blank and is loaded
    back by PyYAML as [d], the serialisation is read as a full document:
    parsing it gives empty argument data, no entry id, no error, and as
    the action [d.get("action") or d.get("service")], the value of
    action when that is truthy and otherwise the value of service
    ([None] without that key); and [d] is not empty. *)
Theorem arguments_named_action_are_lost (d : gmap string pyval) :
  full_document d = true ->
  d !! "data" = None ->
  blank (dict_to_yaml dump d) = false ->
  safe_load (dict_to_yaml dump d) = Loaded (PDict d) ->
  parse (dict_to_yaml dump d)
  = ParsedYaml (Some ∅) (py_or (dict_get d "action") (dict_get d "service"))
      PNone None
  /\ d <> ∅.
Proof.
  intros Hfull Hdata Hb Hl. split.
  - rewrite (parse_mapping _ _ _ Hb Hl), Hfull.
    unfold dict_get_default. rewrite Hdata. reflexivity.
  - intros ->. discriminate Hfull.
Qed.

(** In the full-document form only the keys action, service and data
    count: two documents whose top-level mappings agree on these three
    keys parse alike, whatever else they hold (target, response_variable
    and the like). *)
Theorem full_document_ignores_other_keys (s1 s2 : string)
    (top1 top2 : gmap string pyval) :
  blank s1 = false -> safe_load s1 = Loaded (PDict top1) ->
  blank s2 = false -> safe_load s2 = Loaded (PDict top2) ->
  full_document top1 = true ->
  top1 !! "action" = top2 !! "action" ->
  top1 !! "service" = top2 !! "service" ->
  top1 !! "data" = top2 !! "data" ->
  parse s1 = parse s2.
Proof.
  intros Hb1 Hl1 Hb2 Hl2 Hf Ha Hs Hd.
  rewrite (parse_mapping _ _ _ Hb1 Hl1), (parse_mapping _ _ _ Hb2 Hl2).
  assert (Hf2 : full_document top2 = true).
  { unfold full_document, dict_contains in *. rewrite <- Ha, <- Hs. exact Hf. }
  rewrite Hf, Hf2. unfold dict_get_default, dict_get. rewrite Ha, Hs, Hd.
  reflexivity.
Qed.

(** The outcome of [parse_service_yaml] is one of two kinds: no error and
    argument data, or an error key, which is yaml_parse_error or
    yaml_not_dict, with no argument data and no entry id. *)
Theorem parse_outcomes (yaml_string : string) :
  (error_key (parse yaml_string) = None
   /\ exists d : gmap string pyval, cleaned_data (parse yaml_string) = Some d)
  \/ ((error_key (parse yaml_string) = Some "yaml_parse_error"
       \/ error_key (parse yaml_string) = Some "yaml_not_dict")
      /\ cleaned_data (parse yaml_string) = None
      /\ entry_id (parse yaml_string) = PNone).
Proof.
  unfold parse_service_yaml.
  destruct (blank yaml_string); [left; eauto|].
  destruct (safe_load yaml_string) as [[ | | | | | |top]|]; simpl; eauto 7.
  destruct (dict_contains top "action" || dict_contains top "service").
  - destruct (dict_get_default top "data" (PDict ∅)); simpl; eauto 7.
    rewrite pop_if_present_spec. left. eauto.
  - rewrite pop_if_present_spec. left. eauto.
Qed.

End MoreOnTheNormalizer.

Section MoreOnTheNormalizerWitnesses.
Import Py YamlValidator Spec Documents MoreDocuments.


Lemma arguments_named_action_are_lost_witness :
  full_document toggle_arguments = true
  /\ toggle_arguments !! "data" = None
  /\ dict_to_yaml toggle_dump toggle_arguments = doc_toggle
  /\ toggle_load doc_toggle = Loaded (PDict toggle_arguments)
  /\ parse_service_yaml toggle_load (dict_to_yaml toggle_dump toggle_arguments)
     = ParsedYaml (Some ∅) (PStr "toggle") PNone None.
Proof.
  do 4 (split; [reflexivity|]).
  exact (proj1 (arguments_named_action_are_lost toggle_load toggle_dump
                  toggle_arguments eq_refl eq_refl eq_refl eq_refl)).
Defined.

Lemma full_document_ignores_other_keys_witness :
  target_load doc_action_data
  = Loaded (PDict {[ "action" := PStr "dom.svc"; "data" := PDict level_true ]})
  /\ target_load doc_with_target
     = Loaded (PDict {[ "action" := PStr "dom.svc";
                        "data" := PDict level_true;
                        "target" := PDict ∅ ]})
  /\ parse_service_yaml target_load doc_action_data
     = parse_service_yaml target_load doc_with_target.
Proof.
  do 2 (split; [reflexivity|]).
  exact (full_document_ignores_other_keys target_load
           doc_action_data doc_with_target _ _
           eq_refl eq_refl eq_refl eq_refl eq_refl eq_refl eq_refl eq_refl).
Defined.

End MoreOnTheNormalizerWitnesses.

(* ===================================================================== *)
(** ** Properties of the schemas and of the steps of the flow             *)
(* ===================================================================== *)

Section LegacyEntries.
Import Py Const ConfigFlow Schemas.

Variable str_of : pyval -> string.

Lemma str_contains_app_dot (a b : string) :
  str_contains (a +:+ String "." b) "." = true.
Proof.
  induction a as [|c a IH]; [reflexivity|].
  change (String c a +:+ String "." b) with (String c (a +:+ String "." b)).
  simpl. rewrite IH. apply orb_true_r.
Qed.

Lemma split_once_app_dot (a b : string) :
  str_contains a "." = false ->
  split_once (a +:+ String "." b) "." = [a; b].
Proof.
  induction a as [|c a IH]; [reflexivity|].
  change (String c a +:+ String "." b) with (String c (a +:+ String "." b)).
  simpl. intros [Hc Ha]%orb_false_iff. rewrite Hc, (IH Ha). reflexivity.
Qed.

(** The selection made of a domain without a dot and a name is read
    back as that domain and that name. *)
Lemma extract_of_joined (domain name : string) :
  str_contains domain "." = false ->
  _extract_action_from_selector
    (Some {[ "action" := PStr (domain +:+ "." +:+ name) ]})
  = Ok (Some (domain, name)).
Proof.
  intros Hd. unfold _extract_action_from_selector.
  rewrite (truthy_nonempty _ "action" (PStr (domain +:+ "." +:+ name)))
    by apply lookup_singleton_eq.
  unfold dict_get_default. rewrite lookup_singleton_eq. simpl default.
  change ("." +:+ name) with (String "." name).
  assert (Ht : truthy (PStr (domain +:+ String "." name)) = true).
  { destruct domain; reflexivity. }
  rewrite Ht. simpl negb. cbv iota.
  unfold contains_text, split_text.
  rewrite str_contains_app_dot, (split_once_app_dot _ _ Hd). reflexivity.
Qed.

(** Entries of the old format are carried over: when the stored data
    have no selection but a domain and a name of a service (texts that
    are not empty, the domain without a dot), the reconfigure form
    offers as its selection a mapping that
    [_extract_action_from_selector] reads back as that domain and that
    name. *)
Theorem legacy_entry_selection (current_data : gmap string pyval)
    (domain name : string) :
  truthy (dict_get_default current_data CONF_SERVICE_ACTION (PDict ∅)) = false ->
  current_data !! "service_domain" = Some (PStr domain) ->
  current_data !! "service_name" = Some (PStr name) ->
  domain <> "" -> name <> "" ->
  str_contains domain "." = false ->
  exists selection : gmap string pyval,
    default_of (get_reconfigure_schema str_of current_data) CONF_SERVICE_ACTION
    = Some (PDict selection)
    /\ _extract_action_from_selector (Some selection)
       = Ok (Some (domain, name)).
Proof.
  intros Hsel Hd Hn Hdne Hnne Hdot.
  exists {[ "action" := PStr (domain +:+ "." +:+ name) ]}.
  split; [|apply extract_of_joined, Hdot].
  assert (Hgd : dict_get_default current_data "service_domain" (PStr "")
                = PStr domain)
    by (unfold dict_get_default; rewrite Hd; reflexivity).
  assert (Hgn : dict_get_default current_data "service_name" (PStr "")
                = PStr name)
    by (unfold dict_get_default; rewrite Hn; reflexivity).
  assert (Htd : truthy (PStr domain) = true)
    by (destruct domain; [contradiction|reflexivity]).
  assert (Htn : truthy (PStr name) = true)
    by (destruct name; [contradiction|reflexivity]).
  unfold get_reconfigure_schema. rewrite Hsel, Hgd, Hgn, Htd, Htn.
  reflexivity.
Qed.

End LegacyEntries.

Lemma legacy_entry_selection_witness :
  exists selection : gmap string Py.pyval,
    Schemas.default_of
      (Schemas.get_reconfigure_schema (fun _ => "")
         {[ "service_domain" := Py.PStr "light";
            "service_name" := Py.PStr "turn_on" ]})
      Const.CONF_SERVICE_ACTION
    = Some (Py.PDict selection)
    /\ ConfigFlow._extract_action_from_selector (Some selection)
       = Py.Ok (Some ("light", "turn_on")).
Proof.
  exact (legacy_entry_selection (fun _ => "")
           {[ "service_domain" := Py.PStr "light";
              "service_name" := Py.PStr "turn_on" ]}
           "light" "turn_on" eq_refl eq_refl eq_refl
           ltac:(discriminate) ltac:(discriminate) eq_refl).
Defined.

Section FlowSteps.
Import Py Const YamlValidator ConfigFlow Schemas Flow FlowSpec.

Variable safe_load : string -> load_result.
Variable dump : pyval -> string.
Variable has_service : string -> string -> bool.
Variable async_call : string -> string -> pyval -> call_outcome.
Variable str_of : pyval -> string.

Local Abbreviation handle := (handle_input safe_load dump has_service async_call).
Local Abbreviation step_user :=
  (async_step_user safe_load dump has_service async_call).
Local Abbreviation step_reconfigure :=
  (async_step_reconfigure safe_load dump has_service async_call str_of).
Local Abbreviation passed :=
  (passed_all_checks safe_load dump has_service async_call).

Lemma parse_error_key_cases (yaml_string : string) :
  error_key (parse_service_yaml safe_load yaml_string) = None
  \/ error_key (parse_service_yaml safe_load yaml_string)
     = Some "yaml_parse_error"
  \/ error_key (parse_service_yaml safe_load yaml_string)
     = Some "yaml_not_dict".
Proof.
  unfold parse_service_yaml.
  destruct (blank yaml_string); [auto|].
  destruct (safe_load yaml_string) as [[ | | | | | |top]|]; simpl; auto.
  destruct (dict_contains top "action" || dict_contains top "service").
  - destruct (dict_get_default top "data" (PDict ∅)); simpl; auto.
    rewrite pop_if_present_spec. auto.
  - rewrite pop_if_present_spec. auto.
Qed.

Lemma parse_cleaned_no_entry_id (yaml_string : string) :
  default ∅ (cleaned_data (parse_service_yaml safe_load yaml_string))
    !! "entry_id" = None.
Proof.
  unfold parse_service_yaml.
  destruct (blank yaml_string); [reflexivity|].
  destruct (safe_load yaml_string) as [[ | | | | | |top]|]; try reflexivity.
  destruct (dict_contains top "action" || dict_contains top "service").
  - destruct (dict_get_default top "data" (PDict ∅)); try reflexivity.
    rewrite pop_if_present_spec. apply lookup_delete_eq.
  - rewrite pop_if_present_spec. apply lookup_delete_eq.
Qed.

Lemma parse_value_cases (v : pyval) (parsed : parsed_yaml) :
  parse_value safe_load v = Ok parsed ->
  (error_key parsed = None
   \/ error_key parsed = Some "yaml_parse_error"
   \/ error_key parsed = Some "yaml_not_dict")
  /\ default ∅ (cleaned_data parsed) !! "entry_id" = None.
Proof.
  unfold parse_value.
  destruct v; try (destruct (truthy _); [discriminate|]);
    intros [= <-]; simpl; auto.
  split; [apply parse_error_key_cases|apply parse_cleaned_no_entry_id].
Qed.

Lemma validate_service_call_cases (domain service : string) (data : pyval) :
  (exists response : pyval,
      async_call domain service data = Responded response
      /\ _validate_service_call async_call domain service data = (true, None))
  \/ (exists k : string,
         _validate_service_call async_call domain service data
         = (false, Some k)
         /\ (k = "service_not_found" \/ k = "service_call_failed")).
Proof.
  unfold _validate_service_call.
  destruct (async_call domain service data) as [response| | |]; eauto 6.
  left. exists response. split; [reflexivity|].
  destruct (is_None response); reflexivity.
Qed.

Lemma not_text_false (x : option string) :
  not_text x = false -> exists s : string, x = Some s /\ s <> "".
Proof.
  destruct x as [[|c s]|]; simpl; try discriminate.
  intros _. eexists. split; [reflexivity|discriminate].
Qed.

Lemma elem_error_keys (k : string) :
  k = "yaml_parse_error" \/ k = "yaml_not_dict" \/ k = "no_service_selected"
  \/ k = "service_not_found" \/ k = "service_call_failed" ->
  k ∈ error_keys.
Proof.
  unfold error_keys. intros [->|[->|[->|[->| ->]]]];
    repeat (first [apply list_elem_of_here | apply list_elem_of_further]).
Qed.

(** What the block that handles the input leaves behind: either no error
    and all checks passed, or one error under the key base. *)
Lemma handle_input_cases (user_input : gmap string pyval) (st : locals) :
  handle user_input = Ok st ->
  (errors st = ∅
   /\ exists (parsed : parsed_yaml) (dom svc : string) (response : pyval),
        parse_value safe_load
          (dict_get_default user_input CONF_SERVICE_DATA_YAML (PStr ""))
        = Ok parsed
        /\ error_key parsed = None
        /\ dom <> "" /\ svc <> ""
        /\ has_service dom svc = true
        /\ async_call dom svc
             (validation_data_of safe_load
                (dict_to_yaml dump (default ∅ (cleaned_data parsed))))
           = Responded response
        /\ domain st = Some dom /\ service_name st = Some svc
        /\ clean_yaml st
           = Some (dict_to_yaml dump (default ∅ (cleaned_data parsed)))
        /\ updated_input st !! CONF_SERVICE_DATA_YAML
           = Some (PStr (dict_to_yaml dump (default ∅ (cleaned_data parsed)))))
  \/ (exists k : string, errors st = {[ "base" := k ]} /\ k ∈ error_keys).
Proof.
  unfold handle_input.
  destruct (parse_value safe_load _) as [parsed|e] eqn:Hp; [|discriminate].
  destruct (parse_value_cases _ _ Hp) as [Hk Hid].
  destruct (not_text (error_key parsed)) eqn:Herr; simpl negb; cbv iota.
  2:{ intros [= <-]. right. simpl. eexists. split; [reflexivity|].
      apply elem_error_keys.
      destruct Hk as [Hk|[Hk|Hk]]; rewrite Hk in *; simpl; auto.
      discriminate. }
  assert (Hnone : error_key parsed = None).
  { destruct Hk as [Hk|[Hk|Hk]]; [assumption|rewrite Hk in Herr; discriminate..]. }
  destruct (determine_action _ _ _) as [[[[dom svc] asd] upd]|e]; [|discriminate].
  destruct (not_text dom || not_text svc) eqn:Hds.
  { intros [= <-]. right. simpl. eexists. split; [reflexivity|].
    apply elem_error_keys. auto. }
  apply orb_false_iff in Hds as [Hd Hs].
  destruct (not_text_false _ Hd) as (d & -> & Hdne).
  destruct (not_text_false _ Hs) as (sv & -> & Hsne).
  simpl default.
  destruct (has_service d sv) eqn:Hhas; simpl negb; cbv iota.
  2:{ intros [= <-]. right. simpl. eexists. split; [reflexivity|].
      apply elem_error_keys. auto. }
  destruct (validate_service_call_cases d sv
              (validation_data_of safe_load
                 (dict_to_yaml dump (default ∅ (cleaned_data parsed)))))
    as [(response & Hcall & ->)|(k & -> & Hkk)]; cbv beta iota zeta.
  - intros [= <-]. left. simpl. split; [reflexivity|].
    exists parsed, d, sv, response.
    repeat (split; [first [assumption|reflexivity]|]).
    apply lookup_insert_eq.
  - assert (Hne : not_text (Some k) = false)
      by (destruct Hkk as [-> | ->]; reflexivity).
    rewrite Hne. intros [= <-]. right. simpl.
    eexists. split; [reflexivity|].
    apply elem_error_keys. destruct Hkk; auto.
Qed.

Lemma truthy_errors_empty (errs : gmap string string) :
  truthy_errors errs = false <-> errs = ∅.
Proof.
  unfold truthy_errors. rewrite negb_false_iff, bool_decide_eq_true.
  reflexivity.
Qed.

Lemma passed_of_locals (user_input : gmap string pyval) (st : locals)
    (dom svc cy : string) :
  handle user_input = Ok st ->
  errors st = ∅ ->
  domain st = Some dom -> service_name st = Some svc ->
  clean_yaml st = Some cy ->
  passed user_input (entry_data (entry_name user_input dom svc) st cy).
Proof.
  intros Hh He Hd Hs Hc.
  destruct (handle_input_cases _ _ Hh)
    as [(_ & parsed & d & sv & response & Hp & Hk & Hdne & Hsne & Hhas & Hcall
         & Hd' & Hs' & Hc' & Hu)|(k & Hk & _)].
  2:{ rewrite He in Hk. apply (f_equal (fun m => m !! "base")) in Hk.
      rewrite lookup_empty, lookup_singleton_eq in Hk. discriminate. }
  rewrite Hd in Hd'. rewrite Hs in Hs'. rewrite Hc in Hc'.
  injection Hd' as <-. injection Hs' as <-. injection Hc' as ->.
  exists parsed, dom, svc, response. cbv zeta.
  repeat (split; [assumption|]).
  split; [apply (proj2 (parse_value_cases _ _ Hp))|].
  unfold entry_data, dict_get_default. rewrite Hu. split.
  - rewrite lookup_insert_ne by discriminate.
    rewrite lookup_insert_ne by discriminate.
    apply lookup_singleton_eq.
  - apply lookup_insert_eq.
Qed.


Lemma truthy_errors_singleton (k : string) :
  truthy_errors {[ "base" := k ]} = true.
Proof.
  unfold truthy_errors. apply negb_true_iff, bool_decide_eq_false.
  apply map_non_empty_singleton.
Qed.

(** What a step does with the locals the block left. *)
Lemma step_user_cases (user_input : gmap string pyval) (st : locals) :
  handle user_input = Ok st ->
  (exists dom svc cy : string,
      errors st = ∅
      /\ domain st = Some dom /\ service_name st = Some svc
      /\ clean_yaml st = Some cy
      /\ step_user (Some user_input)
         = Done (CreateEntry (entry_name user_input dom svc)
                   (entry_data (entry_name user_input dom svc) st cy)
                   {[ CONF_SCAN_INTERVAL := PInt 300 ]}))
  \/ (exists k : string,
         errors st = {[ "base" := k ]} /\ k ∈ error_keys
         /\ step_user (Some user_input)
            = Done (ShowForm "user"
                      (get_user_schema
                         (Some (if truthy (PDict (updated_input st))
                                then updated_input st ∪ user_input
                                else user_input)))
                      {[ "base" := k ]})).
Proof.
  intros Hh. unfold async_step_user. rewrite Hh.
  destruct (handle_input_cases _ _ Hh)
    as [(He & parsed & d & sv & response & _ & _ & _ & _ & _ & _
         & Hd & Hs & Hc & _)|(k & Hk & Hin)].
  - left. exists d, sv, (dict_to_yaml dump (default ∅ (cleaned_data parsed))).
    rewrite He, Hd, Hs, Hc.
    repeat (split; [reflexivity|]). reflexivity.
  - right. exists k. rewrite Hk, truthy_errors_singleton. auto.
Qed.

Lemma step_reconfigure_cases (entry user_input : gmap string pyval)
    (st : locals) :
  handle user_input = Ok st ->
  (exists dom svc cy : string,
      errors st = ∅
      /\ step_reconfigure entry (Some user_input)
         = Done (UpdateReloadAndAbort entry
                   (entry_data (entry_name user_input dom svc) st cy)))
  \/ (exists k : string,
         errors st = {[ "base" := k ]} /\ k ∈ error_keys
         /\ step_reconfigure entry (Some user_input)
            = Done (ShowForm "reconfigure"
                      (get_reconfigure_schema str_of entry)
                      {[ "base" := k ]})).
Proof.
  intros Hh. unfold async_step_reconfigure. rewrite Hh.
  destruct (handle_input_cases _ _ Hh)
    as [(He & parsed & d & sv & response & _ & _ & _ & _ & _ & _
         & Hd & Hs & Hc & _)|(k & Hk & Hin)].
  - left. exists d, sv, (dict_to_yaml dump (default ∅ (cleaned_data parsed))).
    rewrite He, Hd, Hs, Hc. split; reflexivity.
  - right. exists k. rewrite Hk, truthy_errors_singleton. auto.
Qed.

(** The errors a form shows: a form shown by either step carries no
    error when the step was entered without input, and otherwise exactly
    one error, under the key base, which is one of yaml_parse_error,
    yaml_not_dict, no_service_selected, service_not_found and
    service_call_failed. *)
Theorem shown_errors (entry : gmap string pyval)
    (user_input : option (gmap string pyval)) (step_id : string)
    (data_schema : list field) (errs : gmap string string) :
  step_user user_input = Done (ShowForm step_id data_schema errs)
  \/ step_reconfigure entry user_input
     = Done (ShowForm step_id data_schema errs) ->
  (user_input = None /\ errs = ∅)
  \/ (exists k : string, errs = {[ "base" := k ]} /\ k ∈ error_keys).
Proof.
  destruct user_input as [ui|].
  2:{ intros [[= _ _ <-]|[= _ _ <-]]; left; split; reflexivity. }
  intros H. right.
  destruct (handle ui) as [st|e] eqn:Hh.
  2:{ unfold async_step_user, async_step_reconfigure in H. rewrite Hh in H.
      destruct H; discriminate. }
  destruct H as [H|H].
  - destruct (step_user_cases _ _ Hh)
      as [(d & sv & cy & _ & _ & _ & _ & Hr)|(k & _ & Hin & Hr)];
      rewrite Hr in H; [discriminate|].
    injection H as _ _ <-. eauto.
  - destruct (step_reconfigure_cases entry _ _ Hh)
      as [(d & sv & cy & _ & Hr)|(k & _ & Hin & Hr)];
      rewrite Hr in H; [discriminate|].
    injection H as _ _ <-. eauto.
Qed.

(** Neither step reads a local variable that was never assigned: the
    variables [domain], [service_name] and [clean_yaml], which only some
    branches assign, are read only when there is no error, and then they
    were assigned. *)
Theorem no_unassigned_variable (entry : gmap string pyval)
    (user_input : option (gmap string pyval)) :
  step_user user_input <> UnboundLocalError
  /\ step_reconfigure entry user_input <> UnboundLocalError.
Proof.
  destruct user_input as [ui|]; [|split; discriminate].
  destruct (handle ui) as [st|e] eqn:Hh.
  2:{ unfold async_step_user, async_step_reconfigure. rewrite Hh.
      split; discriminate. }
  split.
  - destruct (step_user_cases _ _ Hh)
      as [(d & sv & cy & _ & _ & _ & _ & ->)|(k & _ & _ & ->)]; discriminate.
  - destruct (step_reconfigure_cases entry _ _ Hh)
      as [(d & sv & cy & _ & ->)|(k & _ & _ & ->)]; discriminate.
Qed.

(** *** How the action is determined *)

Lemma truthy_with_dot (a : string) :
  str_contains a "." = true -> truthy (PStr a) = true.
Proof. destruct a; [discriminate|reflexivity]. Qed.

Lemma determine_action_split (a : string) (selection : pyval)
    (updates : gmap string pyval) (domain name : string) :
  str_contains a "." = true ->
  split_once a "." = [domain; name] ->
  determine_action (PStr a) selection updates
  = Ok (Some domain, Some name, PDict {[ "action" := PStr a ]},
        <[CONF_SERVICE_ACTION := PDict {[ "action" := PStr a ]}]> updates).
Proof.
  intros Ha Hsp. unfold determine_action. rewrite (truthy_with_dot _ Ha).
  unfold contains_text, split_text. rewrite Ha, Hsp. reflexivity.
Qed.

Lemma determine_action_yaml_no_dot (a : string) (selection : pyval)
    (updates : gmap string pyval) :
  a <> "" -> str_contains a "." = false ->
  determine_action (PStr a) selection updates
  = Ok (None, None, selection, updates).
Proof.
  intros Hne Ha. unfold determine_action.
  assert (Ht : truthy (PStr a) = true) by (destruct a; [contradiction|reflexivity]).
  rewrite Ht. unfold contains_text. rewrite Ha. reflexivity.
Qed.

(** The block on an input whose YAML text parses without error. *)
Lemma handle_parsed (user_input : gmap string pyval) (s : string) :
  user_input !! CONF_SERVICE_DATA_YAML = Some (PStr s) ->
  error_key (parse_service_yaml safe_load s) = None ->
  handle user_input =
    match determine_action (action (parse_service_yaml safe_load s))
            (dict_get user_input CONF_SERVICE_ACTION) ∅ with
    | Raise e => Raise e
    | Ok (domain, service_name, action_selector_data, updated_input) =>
        if not_text domain || not_text service_name then
          Ok (Locals {[ "base" := "no_service_selected" ]} updated_input
                action_selector_data domain service_name None)
        else if negb (has_service (default "" domain)
                        (default "" service_name)) then
          Ok (Locals {[ "base" := "service_not_found" ]} updated_input
                action_selector_data domain service_name None)
        else
          let clean_yaml :=
            dict_to_yaml dump
              (default ∅ (cleaned_data (parse_service_yaml safe_load s))) in
          let updated_input :=
            <[CONF_SERVICE_DATA_YAML := PStr clean_yaml]> updated_input in
          let validation_data := validation_data_of safe_load clean_yaml in
          let '(success, error_key) :=
            _validate_service_call async_call (default "" domain)
              (default "" service_name) validation_data in
          let errors : gmap string string :=
            if negb success && negb (not_text error_key)
            then {[ "base" := default "" error_key ]}
            else ∅ in
          Ok (Locals errors updated_input action_selector_data
                domain service_name (Some clean_yaml))
    end.
Proof.
  intros Hy Hk. unfold handle_input, dict_get_default at 1.
  rewrite Hy. simpl default. unfold parse_value. rewrite Hk. reflexivity.
Qed.

(** An action with a dot in the YAML text decides alone: the selection
    of the dropdown is not consulted, and both the entry stored and the
    form shown are the same whatever it holds. *)
Theorem yaml_action_overrides_selection (user_input : gmap string pyval)
    (s a : string) (x y : pyval) :
  user_input !! CONF_SERVICE_DATA_YAML = Some (PStr s) ->
  error_key (parse_service_yaml safe_load s) = None ->
  action (parse_service_yaml safe_load s) = PStr a ->
  str_contains a "." = true ->
  step_user (Some (<[CONF_SERVICE_ACTION := x]> user_input))
  = step_user (Some (<[CONF_SERVICE_ACTION := y]> user_input)).
Proof.
  intros Hy Hk Ha Hdot.
  assert (Hyz : forall z : pyval,
             <[CONF_SERVICE_ACTION := z]> user_input !! CONF_SERVICE_DATA_YAML
             = Some (PStr s)).
  { intros z. rewrite lookup_insert_ne by discriminate. exact Hy. }
  assert (Hname : forall (z : pyval) (d n : string),
             entry_name (<[CONF_SERVICE_ACTION := z]> user_input) d n
             = entry_name user_input d n).
  { intros z d n. unfold entry_name, dict_get_default.
    rewrite lookup_insert_ne by discriminate. reflexivity. }
  assert (Hmerge : forall (z : pyval) (upd : gmap string pyval) (v : pyval),
             upd !! CONF_SERVICE_ACTION = Some v ->
             (if truthy (PDict upd)
              then upd ∪ <[CONF_SERVICE_ACTION := z]> user_input
              else <[CONF_SERVICE_ACTION := z]> user_input)
             = upd ∪ user_input).
  { intros z upd v Hu. rewrite (truthy_nonempty _ _ _ Hu).
    apply map_eq. intros k. rewrite !lookup_union.
    destruct (decide (k = CONF_SERVICE_ACTION)) as [->|Hne].
    - rewrite Hu, !union_Some_l. reflexivity.
    - rewrite lookup_insert_ne by congruence. reflexivity. }
  assert (Hstep : forall z : pyval,
             step_user (Some (<[CONF_SERVICE_ACTION := z]> user_input))
             = step_user (Some (<[CONF_SERVICE_ACTION := PNone]> user_input))).
  { intros z. unfold async_step_user.
    rewrite !(handle_parsed _ _ (Hyz _) Hk), Ha.
    destruct (split_once_first _ _ Hdot) as (d' & n' & Hsp & _ & _).
    rewrite !(determine_action_split a _ ∅ d' n' Hdot Hsp).
    assert (Hu : forall upd : gmap string pyval,
               (<[CONF_SERVICE_ACTION := PDict {[ "action" := PStr a ]}]> upd)
                 !! CONF_SERVICE_ACTION
               = Some (PDict {[ "action" := PStr a ]}))
      by (intros; apply lookup_insert_eq).
    destruct (not_text (Some d') || not_text (Some n')).
    { cbv beta iota. cbn [errors updated_input]. rewrite truthy_errors_singleton.
      cbn [negb]. rewrite !(Hmerge _ _ _ (Hu _)). reflexivity. }
    destruct (negb (has_service _ _)).
    { cbv beta iota. cbn [errors updated_input]. rewrite truthy_errors_singleton.
      cbn [negb]. rewrite !(Hmerge _ _ _ (Hu _)). reflexivity. }
    cbv zeta.
    destruct (_validate_service_call _ _ _ _) as [success k].
    destruct (negb success && negb (not_text k));
      cbv beta iota;
      cbn [errors updated_input domain service_name clean_yaml
           action_selector_data].
    - rewrite truthy_errors_singleton. cbn [negb].
      assert (Hu' : (<[CONF_SERVICE_DATA_YAML :=
                         PStr (dict_to_yaml dump
                                 (default ∅
                                    (cleaned_data
                                       (parse_service_yaml safe_load s))))]>
                       (<[CONF_SERVICE_ACTION :=
                            PDict {[ "action" := PStr a ]}]> ∅
                        : gmap string pyval))
                      !! CONF_SERVICE_ACTION
                    = Some (PDict {[ "action" := PStr a ]})).
      { rewrite lookup_insert_ne by discriminate. apply lookup_insert_eq. }
      rewrite !(Hmerge _ _ _ Hu'). reflexivity.
    - replace (truthy_errors ∅) with false by reflexivity. cbn [negb].
      unfold entry_data. cbn [updated_input action_selector_data].
      rewrite !Hname. reflexivity. }
  rewrite (Hstep x), (Hstep y). reflexivity.
Qed.

Lemma handle_keeps_yaml_action (user_input : gmap string pyval)
    (s a : string) (st : locals) :
  user_input !! CONF_SERVICE_DATA_YAML = Some (PStr s) ->
  error_key (parse_service_yaml safe_load s) = None ->
  action (parse_service_yaml safe_load s) = PStr a ->
  str_contains a "." = true ->
  handle user_input = Ok st ->
  updated_input st !! CONF_SERVICE_ACTION
  = Some (PDict {[ "action" := PStr a ]}).
Proof.
  intros Hy Hk Ha Hdot. rewrite (handle_parsed _ _ Hy Hk), Ha.
  destruct (split_once_first _ _ Hdot) as (d & n & Hsp & _ & _).
  rewrite (determine_action_split a _ ∅ d n Hdot Hsp).
  destruct (not_text (Some d) || not_text (Some n)).
  { intros [= <-]. apply lookup_insert_eq. }
  destruct (negb (has_service _ _)).
  { intros [= <-]. apply lookup_insert_eq. }
  cbv zeta. destruct (_validate_service_call _ _ _ _) as [success k].
  intros [= <-]. cbn [updated_input].
  rewrite lookup_insert_ne by discriminate. apply lookup_insert_eq.
Qed.

(** The form follows the YAML text: when the YAML field of the input is
    a text that parses without error, the action it gives is a text
    with a dot, and the step shows the form again, the selection the
    form offers is that action, whatever the dropdown held. *)
Theorem form_offers_yaml_action (user_input : gmap string pyval)
    (s a : string) (step_id : string) (data_schema : list field)
    (errs : gmap string string) :
  user_input !! CONF_SERVICE_DATA_YAML = Some (PStr s) ->
  error_key (parse_service_yaml safe_load s) = None ->
  action (parse_service_yaml safe_load s) = PStr a ->
  str_contains a "." = true ->
  step_user (Some user_input) = Done (ShowForm step_id data_schema errs) ->
  default_of data_schema CONF_SERVICE_ACTION
  = Some (PDict {[ "action" := PStr a ]}).
Proof.
  intros Hy Hk Ha Hdot Hstep.
  destruct (handle user_input) as [st|e] eqn:Hh.
  2:{ unfold async_step_user in Hstep. rewrite Hh in Hstep. discriminate. }
  pose proof (handle_keeps_yaml_action _ _ _ _ Hy Hk Ha Hdot Hh) as Hu.
  destruct (step_user_cases _ _ Hh)
    as [(d & sv & cy & _ & _ & _ & _ & Hr)|(k & _ & _ & Hr)];
    rewrite Hr in Hstep; [discriminate|].
  injection Hstep as _ <- _.
  change (negb (bool_decide (updated_input st = ∅)))
    with (truthy (PDict (updated_input st))).
  rewrite (truthy_nonempty _ _ _ Hu).
  assert (Hm : (updated_input st ∪ user_input) !! CONF_SERVICE_ACTION
               = Some (PDict {[ "action" := PStr a ]})).
  { rewrite lookup_union, Hu, union_Some_l. reflexivity. }
  unfold get_user_schema. rewrite (truthy_nonempty _ _ _ Hm).
  cbn [default_of field_key field_default]. 
  change (String.eqb CONF_NAME CONF_SERVICE_ACTION) with false.
  change (String.eqb CONF_SERVICE_ACTION CONF_SERVICE_ACTION) with true.
  cbv iota. exact Hm.
Qed.

(** An action without a dot in the YAML text blocks the input: when the
    YAML field of the input is a text that parses without error and the
    action it gives is a text that is not empty and has no dot, the
    form comes back with the error no_service_selected and the schema
    of the input as it was, even when the dropdown holds a valid
    selection. *)
Theorem yaml_action_without_dot_blocks (user_input : gmap string pyval)
    (s a : string) :
  user_input !! CONF_SERVICE_DATA_YAML = Some (PStr s) ->
  error_key (parse_service_yaml safe_load s) = None ->
  action (parse_service_yaml safe_load s) = PStr a ->
  a <> "" ->
  str_contains a "." = false ->
  step_user (Some user_input)
  = Done (ShowForm "user" (get_user_schema (Some user_input))
            {[ "base" := "no_service_selected" ]}).
Proof.
  intros Hy Hk Ha Hne Hdot. unfold async_step_user.
  rewrite (handle_parsed _ _ Hy Hk), Ha.
  rewrite (determine_action_yaml_no_dot _ _ _ Hne Hdot). reflexivity.
Qed.

Lemma extract_split (selection : gmap string pyval) (t domain name : string) :
  selection !! "action" = Some (PStr t) ->
  str_contains t "." = true ->
  split_once t "." = [domain; name] ->
  _extract_action_from_selector (Some selection) = Ok (Some (domain, name)).
Proof.
  intros Ha Hc Hsp. unfold _extract_action_from_selector.
  rewrite (truthy_nonempty _ _ _ Ha). unfold dict_get_default. rewrite Ha.
  simpl default. rewrite (truthy_with_dot _ Hc).
  unfold contains_text, split_text. rewrite Hc, Hsp. reflexivity.
Qed.

(** A selection whose action has an empty domain or an empty name (the
    text before, or after, its first dot) is refused by the step: when
    the YAML field of the input is a text that parses without error and
    gives no truthy action, and the selection of the input is a mapping
    whose action is a dot followed by a name, or a domain free of dots
    followed by a dot, the form comes back with the error
    no_service_selected. *)
Theorem selection_with_empty_side_refused (user_input : gmap string pyval)
    (s : string) (selection : gmap string pyval) (t : string) :
  user_input !! CONF_SERVICE_DATA_YAML = Some (PStr s) ->
  error_key (parse_service_yaml safe_load s) = None ->
  truthy (action (parse_service_yaml safe_load s)) = false ->
  user_input !! CONF_SERVICE_ACTION = Some (PDict selection) ->
  selection !! "action" = Some (PStr t) ->
  (exists name : string, t = "." +:+ name)
  \/ (exists domain : string,
         t = domain +:+ "." /\ str_contains domain "." = false) ->
  step_user (Some user_input)
  = Done (ShowForm "user" (get_user_schema (Some user_input))
            {[ "base" := "no_service_selected" ]}).
Proof.
  intros Hy Hk Ha Hsel Ht Hside.
  assert (Hex : exists domain name : string,
             _extract_action_from_selector (Some selection)
             = Ok (Some (domain, name))
             /\ not_text (Some domain) || not_text (Some name) = true).
  { destruct Hside as [(n & ->)|(d & -> & Hd)].
    - exists "", n. split; [|reflexivity].
      apply (extract_split _ _ _ _ Ht); reflexivity.
    - exists d, "". split; [|apply orb_true_r].
      apply (extract_split _ _ _ _ Ht).
      + apply str_contains_app_dot.
      + apply split_once_app_dot, Hd. }
  destruct Hex as (d & n & Hex & Hnt).
  unfold async_step_user. rewrite (handle_parsed _ _ Hy Hk).
  unfold determine_action, dict_get. rewrite Ha, Hsel. simpl default.
  rewrite (truthy_nonempty _ _ _ Ht), Hex, Hnt. reflexivity.
Qed.

(** When the YAML text of the input parses without error and its
    action is a truthy instance of [int] or of [float] (an integer or a
    float other than zero, not-a-number included, or the boolean true),
    the step raises [TypeError]: the test for a dot in the action, line
    208, is not defined on a number. *)
Theorem numeric_yaml_action_raises (user_input : gmap string pyval)
    (s : string) (v : pyval) :
  user_input !! CONF_SERVICE_DATA_YAML = Some (PStr s) ->
  error_key (parse_service_yaml safe_load s) = None ->
  action (parse_service_yaml safe_load s) = v ->
  (isinstance_int v || isinstance_float v) = true ->
  truthy v = true ->
  step_user (Some user_input) = Raised TypeError.
Proof.
  intros Hy Hk Ha Hn Ht. unfold async_step_user.
  rewrite (handle_parsed _ _ Hy Hk), Ha.
  unfold determine_action. rewrite Ht.
  destruct v; try discriminate Hn; reflexivity.
Qed.

End FlowSteps.

Section FlowStepsOnDocuments.
Import Py Const YamlValidator ConfigFlow Schemas Flow FlowSpec Documents
  MoreDocuments.


Lemma shown_errors_witness :
  async_step_user recorded_load recorded_dump only_dom_svc no_response
    (Some {[ CONF_SERVICE_DATA_YAML := PStr doc_unterminated ]})
  = Done (ShowForm "user"
            (get_user_schema
               (Some {[ CONF_SERVICE_DATA_YAML := PStr doc_unterminated ]}))
            {[ "base" := "yaml_parse_error" ]})
  /\ (Some ({[ CONF_SERVICE_DATA_YAML := PStr doc_unterminated ]}
            : gmap string pyval) = None
       /\ ({[ "base" := "yaml_parse_error" ]} : gmap string string) = ∅
      \/ exists k : string,
           ({[ "base" := "yaml_parse_error" ]} : gmap string string)
           = {[ "base" := k ]}
           /\ k ∈ error_keys).
Proof.
  split; [reflexivity|].
  exact (shown_errors recorded_load recorded_dump only_dom_svc no_response
           (fun _ => "") ∅
           (Some {[ CONF_SERVICE_DATA_YAML := PStr doc_unterminated ]})
           "user" _ _ (or_introl eq_refl)).
Defined.

Lemma yaml_action_overrides_selection_witness :
  async_step_user recorded_load recorded_dump only_dom_svc no_response
    (Some (<[CONF_SERVICE_ACTION := PNone]>
             {[ CONF_SERVICE_DATA_YAML := PStr doc_full ]}))
  = async_step_user recorded_load recorded_dump only_dom_svc no_response
      (Some (<[CONF_SERVICE_ACTION :=
                 PDict {[ "action" := PStr "light.turn_on" ]}]>
               {[ CONF_SERVICE_DATA_YAML := PStr doc_full ]})).
Proof.
  exact (yaml_action_overrides_selection recorded_load recorded_dump
           only_dom_svc no_response
           {[ CONF_SERVICE_DATA_YAML := PStr doc_full ]} doc_full "dom.svc"
           PNone (PDict {[ "action" := PStr "light.turn_on" ]})
           eq_refl eq_refl eq_refl eq_refl).
Defined.

Lemma form_offers_yaml_action_witness :
  async_step_user recorded_load recorded_dump (fun _ _ => false) no_response
    (Some {[ CONF_SERVICE_DATA_YAML := PStr doc_full ]})
  = Done (ShowForm "user"
            (get_user_schema
               (Some ({[ CONF_SERVICE_ACTION :=
                           PDict {[ "action" := PStr "dom.svc" ]} ]}
                      ∪ {[ CONF_SERVICE_DATA_YAML := PStr doc_full ]})))
            {[ "base" := "service_not_found" ]})
  /\ default_of
       (get_user_schema
          (Some ({[ CONF_SERVICE_ACTION :=
                      PDict {[ "action" := PStr "dom.svc" ]} ]}
                 ∪ {[ CONF_SERVICE_DATA_YAML := PStr doc_full ]})))
       CONF_SERVICE_ACTION
     = Some (PDict {[ "action" := PStr "dom.svc" ]}).
Proof.
  assert (H : async_step_user recorded_load recorded_dump (fun _ _ => false)
                no_response
                (Some {[ CONF_SERVICE_DATA_YAML := PStr doc_full ]})
              = Done (ShowForm "user"
                        (get_user_schema
                           (Some ({[ CONF_SERVICE_ACTION :=
                                       PDict {[ "action" := PStr "dom.svc" ]} ]}
                                  ∪ {[ CONF_SERVICE_DATA_YAML :=
                                         PStr doc_full ]})))
                        {[ "base" := "service_not_found" ]}))
    by reflexivity.
  split; [exact H|].
  exact (form_offers_yaml_action recorded_load recorded_dump (fun _ _ => false)
           no_response {[ CONF_SERVICE_DATA_YAML := PStr doc_full ]}
           doc_full "dom.svc" _ _ _ eq_refl eq_refl eq_refl eq_refl H).
Defined.

Lemma yaml_action_without_dot_blocks_witness :
  action (parse_service_yaml toggle_load doc_toggle) = PStr "toggle"
  /\ async_step_user toggle_load toggle_dump only_dom_svc no_response
       (Some {[ CONF_SERVICE_DATA_YAML := PStr doc_toggle;
                CONF_SERVICE_ACTION := PDict {[ "action" := PStr "dom.svc" ]} ]})
     = Done (ShowForm "user"
               (get_user_schema
                  (Some {[ CONF_SERVICE_DATA_YAML := PStr doc_toggle;
                           CONF_SERVICE_ACTION :=
                             PDict {[ "action" := PStr "dom.svc" ]} ]}))
               {[ "base" := "no_service_selected" ]}).
Proof.
  split; [reflexivity|].
  exact (yaml_action_without_dot_blocks toggle_load toggle_dump only_dom_svc
           no_response
           {[ CONF_SERVICE_DATA_YAML := PStr doc_toggle;
              CONF_SERVICE_ACTION := PDict {[ "action" := PStr "dom.svc" ]} ]}
           doc_toggle "toggle" eq_refl eq_refl eq_refl
           ltac:(discriminate) eq_refl).
Defined.

Lemma selection_with_empty_side_refused_witness :
  async_step_user recorded_load recorded_dump only_dom_svc no_response
    (Some {[ CONF_SERVICE_DATA_YAML := PStr "";
             CONF_SERVICE_ACTION := PDict {[ "action" := PStr ".svc" ]} ]})
  = Done (ShowForm "user"
            (get_user_schema
               (Some {[ CONF_SERVICE_DATA_YAML := PStr "";
                        CONF_SERVICE_ACTION :=
                          PDict {[ "action" := PStr ".svc" ]} ]}))
            {[ "base" := "no_service_selected" ]}).
Proof.
  exact (selection_with_empty_side_refused recorded_load recorded_dump
           only_dom_svc no_response
           {[ CONF_SERVICE_DATA_YAML := PStr "";
              CONF_SERVICE_ACTION := PDict {[ "action" := PStr ".svc" ]} ]}
           "" {[ "action" := PStr ".svc" ]} ".svc"
           eq_refl eq_refl eq_refl eq_refl eq_refl
           (or_introl (ex_intro _ "svc" eq_refl))).
Defined.

Lemma numeric_yaml_action_raises_witness :
  (numeric_load doc_numeric_action = Loaded (PDict {[ "action" := PInt 5 ]})
   /\ async_step_user numeric_load recorded_dump only_dom_svc no_response
        (Some {[ CONF_SERVICE_DATA_YAML := PStr doc_numeric_action ]})
      = Raised TypeError)
  /\ (numeric_load doc_float_action
      = Loaded (PDict {[ "action" := five_and_a_half ]})
      /\ async_step_user numeric_load recorded_dump only_dom_svc no_response
           (Some {[ CONF_SERVICE_DATA_YAML := PStr doc_float_action ]})
         = Raised TypeError).
Proof.
  split; (split; [reflexivity|]).
  - apply (numeric_yaml_action_raises numeric_load recorded_dump only_dom_svc
             no_response
             {[ CONF_SERVICE_DATA_YAML := PStr doc_numeric_action ]}
             doc_numeric_action (PInt 5)); reflexivity.
  - apply (numeric_yaml_action_raises numeric_load recorded_dump only_dom_svc
             no_response
             {[ CONF_SERVICE_DATA_YAML := PStr doc_float_action ]}
             doc_float_action five_and_a_half); reflexivity.
Defined.

End FlowStepsOnDocuments.
